(** * interesting-blaseball-games: the view layer ([view.py])

    A shallow embedding of [interesting_blaseball_games/view.py]: the column
    planner [View.assemble_column_headers], the caption builder
    [View.table_description] and the two [_render_table] methods of
    [RichView] and [MarkdownView], followed by the properties of the
    specification that concern them.

    Python values are a small tagged union, exceptions are an error monad,
    a pandas [DataFrame] is an ordered list of named columns, and the
    attributes of [self] that [_render_table] reassigns are threaded as
    explicit state. *)

From Stdlib Require Import ZArith String Ascii List Bool Lia.
From Stdlib Require Import Decimal DecimalString DecimalZ.
From Stdlib Require Import SpecFloat.
From stdpp Require Import base option list strings gmap.

Import ListNotations.
Local Open Scope Z_scope.
Local Open Scope string_scope.

(** ** Python values and exceptions *)

(** The cells of a data frame and the operands of the lambdas in [view.py].
    A [float] is an IEEE 754 binary64 number ([spec_float] at precision 53);
    a [str] is kept as its UTF-8 bytes. *)
Inductive pyval : Type :=
  | VNone
  | VBool (b : bool)
  | VInt (z : Z)
  | VFloat (f : spec_float)
  | VStr (s : string).

(** The exceptions that the modelled code can raise.  [SystemExit n] is what
    [sys.exit(n)] raises. *)
Inductive exn : Type :=
  | KeyError
  | TypeError
  | ValueError
  | OverflowError
  | UnboundLocalError
  | SystemExit (code : Z)
  | Exception (msg : string).

Inductive result (A : Type) : Type :=
  | Ok (a : A)
  | Raise (e : exn).
Arguments Ok {A} a.
Arguments Raise {A} e.

Global Instance result_ret : MRet result := fun _ a => Ok a.
Global Instance result_bind : MBind result := fun _ _ f m =>
  match m with
  | Ok a => f a
  | Raise e => Raise e
  end.
Global Instance result_fmap : FMap result := fun _ _ f m =>
  match m with
  | Ok a => Ok (f a)
  | Raise e => Raise e
  end.

Definition is_Raise {A} (m : result A) : Prop := exists e, m = Raise e.

(** [try: m except KeyError: h] *)
Definition except_KeyError {A} (m : result A) (h : result A) : result A :=
  match m with
  | Raise KeyError => h
  | _ => m
  end.

(** A [for] loop that updates one variable; the first exception ends it. *)
Fixpoint foldR {A B} (f : B -> A -> result B) (l : list A) (b : B) : result B :=
  match l with
  | [] => Ok b
  | x :: l' => b' ← f b x; foldR f l' b'
  end.

(** Monadic map over a list, left to right; the first exception wins. *)
Fixpoint mapR {A B} (f : A -> result B) (l : list A) : result (list B) :=
  match l with
  | [] => Ok []
  | x :: l' => y ← f x; ys ← mapR f l'; mret (y :: ys)
  end.

(** ** Builtins used by the lambdas of [view.py] *)

(** [str(n)] and ["%d" % n] for an [int]. *)
Definition str_of_int (z : Z) : string := NilZero.string_of_int (Z.to_int z).

(** [int(s)] on the decimal strings that [str_of_int] produces. *)
Definition int_of_str (s : string) : result Z :=
  match NilZero.int_of_string s with
  | Some d => Ok (Z.of_int d)
  | None => Raise ValueError
  end.

Definition Z_of_bool (b : bool) : Z := if b then 1 else 0.

(** binary64 arithmetic. *)
Definition b64_add : spec_float -> spec_float -> spec_float := SFadd 53 1024.
Definition b64_mul : spec_float -> spec_float -> spec_float := SFmul 53 1024.
(** [float(z)] for a small integer constant. *)
Definition b64_of_Z (z : Z) : spec_float := binary_normalize 53 1024 z 0 false.

(** [x + 1] *)
Definition add_one (x : pyval) : result pyval :=
  match x with
  | VInt z => Ok (VInt (z + 1))
  | VBool b => Ok (VInt (Z_of_bool b + 1))
  | VFloat f => Ok (VFloat (b64_add f (b64_of_Z 1)))
  | VStr _ | VNone => Raise TypeError
  end.

Fixpoint str_repeat (n : nat) (s : string) : string :=
  match n with
  | O => ""
  | S n' => s +:+ str_repeat n' s
  end.

(** [100 * x] *)
Definition times100 (x : pyval) : result pyval :=
  match x with
  | VInt z => Ok (VInt (100 * z))
  | VBool b => Ok (VInt (100 * Z_of_bool b))
  | VFloat f => Ok (VFloat (b64_mul (b64_of_Z 100) f))
  | VStr s => Ok (VStr (str_repeat 100 s))
  | VNone => Raise TypeError
  end.

(** Nearest integer to [m / d] for [0 <= m] and [0 < d], a tie going to the
    even neighbour: what [round] does on the exact value of a float. *)
Definition round_half_even (m d : Z) : Z :=
  let q := m / d in
  let r := m mod d in
  match 2 * r ?= d with
  | Lt => q
  | Gt => q + 1
  | Eq => if Z.even q then q else q + 1
  end.

(** [round(f)] for a [float]: an [int], or an exception for nan and the
    infinities. *)
Definition round_float (f : spec_float) : result Z :=
  match f with
  | S754_nan => Raise ValueError
  | S754_infinity _ => Raise OverflowError
  | S754_zero _ => Ok 0
  | S754_finite s m e =>
      let a := match e with
               | Zneg p => round_half_even (Zpos m) (2 ^ Zpos p)
               | _ => Zpos m * 2 ^ e
               end in
      Ok (if s then - a else a)
  end.

(** [round(x)] with one argument. *)
Definition py_round (x : pyval) : result pyval :=
  match x with
  | VInt z => Ok (VInt z)
  | VBool b => Ok (VInt (Z_of_bool b))
  | VFloat f => VInt <$> round_float f
  | VStr _ | VNone => Raise TypeError
  end.

(** [int(f)] for a [float]: truncation towards zero. *)
Definition trunc_float (f : spec_float) : result Z :=
  match f with
  | S754_nan => Raise ValueError
  | S754_infinity _ => Raise OverflowError
  | S754_zero _ => Ok 0
  | S754_finite s m e =>
      let a := match e with
               | Zneg p => Zpos m / 2 ^ Zpos p
               | _ => Zpos m * 2 ^ e
               end in
      Ok (if s then - a else a)
  end.

(** The conversion [%d] of the [%] operator on strings. *)
Definition format_d (x : pyval) : result string :=
  match x with
  | VInt z => Ok (str_of_int z)
  | VBool b => Ok (str_of_int (Z_of_bool b))
  | VFloat f => str_of_int <$> trunc_float f
  | VStr _ | VNone => Raise TypeError
  end.

(** [sub in s] for two strings. *)
Fixpoint str_contains (sub s : string) : bool :=
  String.prefix sub s ||
  match s with
  | EmptyString => false
  | String _ s' => str_contains sub s'
  end.

(** [s[-n:]] *)
Definition str_last (n : nat) (s : string) : string :=
  String.substring (String.length s - n) n s.

(** [x in l] for a list of strings. *)
Definition list_contains (x : string) (l : list string) : bool :=
  existsb (String.eqb x) l.

(** [sep.join(l)] *)
Fixpoint str_join (sep : string) (l : list string) : string :=
  match l with
  | [] => ""
  | [x] => x
  | x :: l' => x +:+ sep +:+ str_join sep l'
  end.

(** What [view.py] takes from outside itself: [repr] of a [float] (the
    shortest decimal that reads back as the same binary64 number), the
    roster that [util.get_league_division_team_data] returns as its third
    component, the keys of [game_data.REASON2FUNCTION], and of [os.path]
    the functions [exists], [abspath] and [dirname], with the file system as
    it is when [View.__init__] runs. *)
Class Externals : Type := {
  repr_float : spec_float -> string;
  ALLTEAMS : list string;
  REASON2FUNCTION_keys : list string;
  path_exists : string -> bool;
  abspath : string -> string;
  dirname : string -> string
}.

(** [str(x)] *)
Definition py_str `{Externals} (x : pyval) : string :=
  match x with
  | VNone => "None"
  | VBool true => "True"
  | VBool false => "False"
  | VInt z => str_of_int z
  | VFloat f => repr_float f
  | VStr s => s
  end.

(** *** [chr(int(x, 16))] *)

(** The white space that [int] skips in a [str] of ASCII characters: tab,
    line feed, vertical tab, form feed, carriage return and space. *)
Definition is_space (c : ascii) : bool :=
  let n := N_of_ascii c in
  ((9 <=? n) && (n <=? 13) || (n =? 32))%N.

Fixpoint lstrip (s : string) : string :=
  match s with
  | String c s' => if is_space c then lstrip s' else s
  | EmptyString => s
  end.

Fixpoint all_space (s : string) : bool :=
  match s with
  | String c s' => is_space c && all_space s'
  | EmptyString => true
  end.

Definition hex_digit (c : ascii) : option Z :=
  let n := Z.of_N (N_of_ascii c) in
  (if (48 <=? n) && (n <=? 57) then Some (n - 48)
   else if (97 <=? n) && (n <=? 102) then Some (n - 87)
   else if (65 <=? n) && (n <=? 70) then Some (n - 55)
   else None)%Z.

(** The digits of a literal: hexadecimal digits, single underscores between
    them, then nothing but white space. *)
Fixpoint scan_hex (s : string) (prev_underscore : bool) (acc : Z) : option Z :=
  match s with
  | EmptyString => if prev_underscore then None else Some acc
  | String c s' =>
      if Ascii.eqb c "_" then
        if prev_underscore then None else scan_hex s' true acc
      else
        match hex_digit c with
        | Some d => scan_hex s' false (16 * acc + d)
        | None => if prev_underscore || negb (all_space s) then None else Some acc
        end
  end.

Definition starts_with_digit (s : string) : bool :=
  match s with
  | String c _ => bool_decide (is_Some (hex_digit c))
  | EmptyString => false
  end.

(** The optional sign of a literal: whether it is a minus, and the rest. *)
Definition strip_sign (s : string) : bool * string :=
  match s with
  | String c r =>
      if Ascii.eqb c "+" then (false, r)
      else if Ascii.eqb c "-" then (true, r)
      else (false, s)
  | EmptyString => (false, s)
  end.

(** The optional [0x] prefix of a literal, after which one underscore may
    stand. *)
Definition strip_hex_prefix (s : string) : string :=
  match s with
  | String c1 (String c2 r) =>
      if Ascii.eqb c1 "0" && (Ascii.eqb c2 "x" || Ascii.eqb c2 "X") then
        match r with
        | String c3 r' => if Ascii.eqb c3 "_" then r' else r
        | EmptyString => r
        end
      else s
  | _ => s
  end.

(** [int(x, 16)] for a [str] of ASCII characters: optional white space, an
    optional sign, an optional [0x] prefix, digits.  Any other argument
    type is a [TypeError]. *)
Definition int16 (x : pyval) : result Z :=
  match x with
  | VStr s =>
      let '(neg, s2) := strip_sign (lstrip s) in
      let s3 := strip_hex_prefix s2 in
      if starts_with_digit s3 then
        match scan_hex s3 false 0 with
        | Some n => Ok (if neg : bool then - n else n)
        | None => Raise ValueError
        end
      else Raise ValueError
  | _ => Raise TypeError
  end.

Definition byte (n : Z) : ascii := ascii_of_N (Z.to_N n).

(** [chr(n)]: the one character of code point [n], as its UTF-8 bytes. *)
Definition chr (n : Z) : result string :=
  (if (n <? - 2 ^ 31) || (2 ^ 31 <=? n) then Raise OverflowError
  else if (n <? 0) || (1114111 <? n) then Raise ValueError
  else if n <? 128 then Ok (String (byte n) "")
  else if n <? 2048 then
    Ok (String (byte (192 + n / 64)) (String (byte (128 + n mod 64)) ""))
  else if n <? 65536 then
    Ok (String (byte (224 + n / 4096))
       (String (byte (128 + (n / 64) mod 64))
       (String (byte (128 + n mod 64)) "")))
  else
    Ok (String (byte (240 + n / 262144))
       (String (byte (128 + (n / 4096) mod 64))
       (String (byte (128 + (n / 64) mod 64))
       (String (byte (128 + n mod 64)) "")))))%Z.

(** ** Data frames *)

(** A pandas [DataFrame] as [view.py] uses it: a number of rows and an
    ordered list of named columns, each holding one value per row. *)
Record DataFrame : Type := {
  nrows : nat;
  data : list (string * list pyval)
}.

Fixpoint lookup_col (k : string) (cols : list (string * list pyval))
  : option (list pyval) :=
  match cols with
  | [] => None
  | (k', c) :: cols' => if String.eqb k k' then Some c else lookup_col k cols'
  end.

Definition has_col (df : DataFrame) (k : string) : bool :=
  bool_decide (is_Some (lookup_col k (data df))).

(** [df.columns] *)
Definition df_columns (df : DataFrame) : list string := map fst (data df).

(** [df[k]]: a missing label is a [KeyError]. *)
Definition df_col (k : string) (df : DataFrame) : result (list pyval) :=
  match lookup_col k (data df) with
  | Some c => Ok c
  | None => Raise KeyError
  end.

(** [df[ks]] for a list of labels. *)
Definition df_select (ks : list string) (df : DataFrame) : result DataFrame :=
  cols ← mapR (fun k => c ← df_col k df; mret (k, c)) ks;
  mret {| nrows := nrows df; data := cols |}.

(** The number of elements that [seq[:stop]] keeps of [len]. *)
Definition slice_stop (stop : Z) (len : nat) : nat :=
  if (stop <? 0)%Z then Z.to_nat (Z.of_nat len + stop)
  else Nat.min (Z.to_nat stop) len.

(** [df[:stop]] *)
Definition df_head (stop : Z) (df : DataFrame) : DataFrame :=
  let n := slice_stop stop (nrows df) in
  {| nrows := n; data := map (fun kc => (kc.1, take n kc.2)) (data df) |}.

(** [series.apply(f)] *)
Definition series_apply (f : pyval -> result pyval) (c : list pyval)
  : result (list pyval) := mapR f c.

Fixpoint set_col (k : string) (c : list pyval) (cols : list (string * list pyval))
  : list (string * list pyval) :=
  match cols with
  | [] => [(k, c)]
  | (k', c') :: cols' =>
      if String.eqb k k' then (k, c) :: cols' else (k', c') :: set_col k c cols'
  end.

(** [df.assign] with one keyword [k = c], and [df[k] = c]: the column is
    replaced where it stands, or added last. *)
Definition df_assign (k : string) (c : list pyval) (df : DataFrame) : DataFrame :=
  {| nrows := nrows df; data := set_col k c (data df) |}.

(** [df.drop(labels, axis=1)]: every label has to be a column. *)
Definition df_drop (labels : list string) (df : DataFrame) : result DataFrame :=
  if forallb (has_col df) labels then
    Ok {| nrows := nrows df;
          data := filter (fun kc => negb (list_contains kc.1 labels)) (data df) |}
  else Raise KeyError.

(** [df.applymap(f)] for a function that cannot fail. *)
Definition df_applymap (f : pyval -> pyval) (df : DataFrame) : DataFrame :=
  {| nrows := nrows df; data := map (fun kc => (kc.1, map f kc.2)) (data df) |}.

(** A row of a frame, as [iterrows] and [apply(axis=1)] hand it over: the
    labels with the values of that row. *)
Definition Row : Type := list (string * pyval).

Definition df_row (df : DataFrame) (i : nat) : Row :=
  map (fun kc => (kc.1, default VNone (kc.2 !! i))) (data df).

(** [df.iterrows()] *)
Definition df_iterrows (df : DataFrame) : list Row :=
  map (df_row df) (seq 0 (nrows df)).

(** [row[k]] *)
Fixpoint row_get (k : string) (r : Row) : result pyval :=
  match r with
  | [] => Raise KeyError
  | (k', v) :: r' => if String.eqb k k' then Ok v else row_get k r'
  end.

(** What [df.apply(f, axis=1)] returns: a [Series] with the value of [f] on
    each row or, for a frame that has no row, a copy of the frame. *)
Inductive applied : Type :=
  | AppliedSeries (c : list pyval)
  | AppliedFrame (d : DataFrame).

(** [df.apply(f, axis=1)] *)
Definition df_apply_rows (f : Row -> result pyval) (df : DataFrame)
  : result applied :=
  match nrows df with
  | O => Ok (AppliedFrame df)
  | S _ => AppliedSeries <$> mapR f (df_iterrows df)
  end.

(** [df[k] = value]: a series becomes the column [k], and so does the one
    column of a frame; a frame with another number of columns cannot be set
    as one column, which is a [ValueError]. *)
Definition df_setitem (k : string) (value : applied) (df : DataFrame)
  : result DataFrame :=
  match value with
  | AppliedSeries c => Ok (df_assign k c df)
  | AppliedFrame d =>
      match data d with
      | [(_, c)] => Ok (df_assign k c df)
      | _ => Raise ValueError
      end
  end.

(** ** What the renderers emit *)

(** [l.append(x)] *)
Definition py_append {A} (l : list A) (x : A) : list A := (l ++ [x])%list.

Inductive justify : Type := JustifyDefault | JustifyRight | JustifyCenter.

(** A [rich.table.Table]: the columns added so far, each with its header
    and justification, and the rows added so far. *)
Record Table : Type := {
  table_columns : list (string * justify);
  table_rows : list (list pyval)
}.

Definition add_column (header : string) (j : justify) (t : Table) : Table :=
  {| table_columns := py_append (table_columns t) (header, j);
     table_rows := table_rows t |}.

Definition add_row (cells : list pyval) (t : Table) : Table :=
  {| table_columns := table_columns t;
     table_rows := py_append (table_rows t) cells |}.

(** One effect of the program: a write to the console, to standard output
    or to a file, which [open(path, 'w')] empties first and
    [open(path, 'a')] does not, or a pause of [time.sleep]. *)
Inductive emitted : Type :=
  | ConsolePrint (s : string)
  | ConsoleTable (t : Table)
  | Print (s : string)
  | FileAppend (path : string) (s : string)
  | FileWrite (path : string) (s : string)
  | Sleep (seconds : Z).

Definition newline : string := String (ascii_of_N 10) "".

(** ** The options and the [View] base class *)

(** The attributes of the parsed command line that [view.py] reads. *)
Module Options.
Record t : Type := {
  n_results : Z;
  name_style : string;
  win_loss : bool;
  home_away : bool;
  winning_pitcher : bool;
  losing_pitcher : bool;
  home_pitcher : bool;
  away_pitcher : bool;
  season : list string;
  postseason : bool;
  team : list string;
  output : string
}.
End Options.

Definition NAMESTYLE_CHOICES : list string := ["long"; "short"; "emoji"].


Module View.

(** The attributes of [self].  [game_data] is left out: its tables are
    handed to [make_table] directly. *)
Record t : Type := {
  nresults : Z;
  column_headers : list string;
  nice_column_headers : list string;
  name_style : string;
  options : Options.t;
  output_file : option string
}.

(** The caption of one table. *)
Definition table_description `{Externals} (self : t) (reason : string)
  : result string :=
  let options := options self in
  desc ←
    (if String.eqb reason "blowout" then
       Ok "Blowout games (games with high scores and high run differentials) "
     else if String.eqb reason "shutout" then
       Ok "Shutout games (games where the loser had zero runs) "
     else if String.eqb reason "shame" then
       Ok "Shame games (games where the loser was shamed) "
     else if String.eqb reason "underdog" then
       Ok "Underdog games (games where the underdog won with large run differential) "
     else if String.eqb reason "maxedout" then
       Ok "Maxed out games (high-scoring one-run games) "
     else if String.eqb reason "defensive" then
       Ok "Defensive games (low-scoring one-run games) "
     else
       Raise (Exception ("Error: reason not recognized. Valid reasons: "
                         +:+ str_join ", " REASON2FUNCTION_keys)));
  let desc :=
    if list_contains "all" (Options.season options) then desc +:+ "for all time "
    else if bool_decide (length (Options.season options) = 1%nat) then
      desc +:+ "for season " +:+ str_join "" (Options.season options) +:+ " "
    else
      desc +:+ "for seasons " +:+ str_join ", " (Options.season options) +:+ " " in
  let desc :=
    if Options.postseason options then desc +:+ "(postseason only) " else desc in
  let desc :=
    if bool_decide (length (Options.team options) = 1%nat) then
      desc +:+ "for team " +:+ str_join "" (Options.team options)
    else if bool_decide
              (size (list_to_set ALLTEAMS ∖ list_to_set (Options.team options)
                     : gset string) = 0%nat) then
      desc +:+ "for all teams"
    else
      desc +:+ "for teams " +:+ str_join ", " (Options.team options) in
  mret (desc +:+ " (note: all days and seasons displayed are 1-indexed)").

(** The column plan: the frame's column names and the labels to print,
    in their final order.  The method has no [raise]; it is kept in the
    error monad so that "it returns" can be said of it. *)
Definition assemble_column_headers (options : Options.t)
  : result (list string * list string) :=
  let column_names := ["season"; "day"; "isPostseason"] in
  let nice_column_names := ["Sea"; "Day"; "Post"] in
  let style := Options.name_style options in
  if Options.win_loss options then
    (* Winning pitcher *)
    let '(column_names, nice_column_names) :=
      if Options.winning_pitcher options then
        (py_append column_names "winningPitcherName", py_append nice_column_names "WP")
      else (column_names, nice_column_names) in
    (* Winning team name *)
    let column_names :=
      if String.eqb style "long" then py_append column_names "winningTeamName"
      else if String.eqb style "short" then py_append column_names "winningTeamNickname"
      else if String.eqb style "emoji" then py_append column_names "winningTeamEmoji"
      else column_names in
    let nice_column_names := py_append nice_column_names "Winner" in
    (* W odds (not printed) *)
    let column_names := py_append column_names "winningOdds" in
    let nice_column_names := py_append nice_column_names "W Odds" in
    (* Score *)
    let column_names := py_append column_names "winningLosingScore" in
    let nice_column_names := py_append nice_column_names "Score" in
    (* L odds (not printed) *)
    let column_names := py_append column_names "losingOdds" in
    let nice_column_names := py_append nice_column_names "L Odds" in
    (* Losing team name *)
    let column_names :=
      if String.eqb style "long" then py_append column_names "losingTeamName"
      else if String.eqb style "short" then py_append column_names "losingTeamNickname"
      else if String.eqb style "emoji" then py_append column_names "losingTeamEmoji"
      else column_names in
    let nice_column_names := py_append nice_column_names "Loser" in
    (* Losing pitcher *)
    let '(column_names, nice_column_names) :=
      if Options.losing_pitcher options then
        (py_append column_names "losingPitcherName", py_append nice_column_names "LP")
      else (column_names, nice_column_names) in
    mret (column_names, nice_column_names)
  else if Options.home_away options then
    (* Home pitcher *)
    let '(column_names, nice_column_names) :=
      if Options.home_pitcher options then
        (py_append column_names "homePitcherName", py_append nice_column_names "Home P")
      else (column_names, nice_column_names) in
    (* Home team name *)
    let column_names :=
      if String.eqb style "long" then py_append column_names "homeTeamName"
      else if String.eqb style "short" then py_append column_names "homeTeamNickname"
      else if String.eqb style "emoji" then py_append column_names "homeTeamEmoji"
      else column_names in
    let nice_column_names := py_append nice_column_names "Home" in
    (* H odds (not printed) *)
    let column_names := py_append column_names "homeOdds" in
    let nice_column_names := py_append nice_column_names "A Odds" in
    (* Score *)
    let column_names := py_append column_names "homeAwayScore" in
    let nice_column_names := py_append nice_column_names "Score" in
    (* A odds (not printed) *)
    let column_names := py_append column_names "awayOdds" in
    let nice_column_names := py_append nice_column_names "A Odds" in
    (* Away team name *)
    let column_names :=
      if String.eqb style "long" then py_append column_names "awayTeamName"
      else if String.eqb style "short" then py_append column_names "awayTeamNickname"
      else if String.eqb style "emoji" then py_append column_names "awayTeamEmoji"
      else column_names in
    let nice_column_names := py_append nice_column_names "Away" in
    (* Away pitcher *)
    let '(column_names, nice_column_names) :=
      if Options.away_pitcher options then
        (py_append column_names "awayPitcherName", py_append nice_column_names "Away P")
      else (column_names, nice_column_names) in
    mret (column_names, nice_column_names)
  else mret (column_names, nice_column_names).

(** [View.__init__].  The construction of [GameData(options)], which is
    not of this file, is left out; the tables that it parses are handed to
    [make_table] directly. *)
Definition init `{Externals} (options : Options.t) : result (t * list emitted) :=
  '(column_headers, nice_column_headers) ← assemble_column_headers options;
  let self output_file :=
    {| nresults := Options.n_results options;
       column_headers := column_headers;
       nice_column_headers := nice_column_headers;
       name_style := Options.name_style options;
       options := options;
       output_file := output_file |} in
  (* If an output file is specified, check if it exists and if the path to
     it exists *)
  if String.eqb (Options.output options) "" then mret (self None, [])
  else
    let output_file := Options.output options in
    if path_exists output_file then
      mret (self (Some output_file),
            [Print ("WARNING: Overwriting an existing file " +:+ output_file);
             Print "Waiting 5 seconds before proceeding"; Sleep 5;
             (* Clear out the file *)
             FileWrite output_file ""])
    else
      let output_file_path := abspath (dirname output_file) in
      if negb (path_exists output_file_path) then
        Raise (Exception ("Error: directory for output file ("
                          +:+ output_file_path +:+ ") does not exist!"))
      else mret (self (Some output_file), []).

End View.




(** ** The lambdas and the state of a renderer *)

(** The string formatting of [addodds], on the pair [(a, b)]: a [%s], then
    a [%d] in parentheses with a percent sign. *)
Definition format_name_odds `{Externals} (a b : pyval) : result pyval :=
  d ← format_d b; mret (VStr (py_str a +:+ " (" +:+ d +:+ "%)")).

(** [self] after [_render_table] has reassigned the two header lists. *)
Definition set_headers (self : View.t) (column_headers nice_column_headers : list string)
  : View.t :=
  {| View.nresults := View.nresults self;
     View.column_headers := column_headers;
     View.nice_column_headers := nice_column_headers;
     View.name_style := View.name_style self;
     View.options := View.options self;
     View.output_file := View.output_file self |}.

(** ** [RichView] *)

Module RichView.

(** The lambdas that [_render_table] defines on its way. *)
Definition plusone (x : pyval) : result pyval := add_one x.

Definition addodds `{Externals} (namelabel oddslabel : string) (row : Row)
  : result pyval :=
  name ← row_get namelabel row;
  odds ← row_get oddslabel row;
  scaled ← times100 odds;
  percent ← py_round scaled;
  format_name_odds name percent.

Definition postseason_lambda (c : pyval) : pyval :=
  match c with
  | VBool false => VStr " "
  | _ => VStr "Y"
  end.

Definition emoji_lambda (x : pyval) : result pyval :=
  n ← int16 x; c ← chr n; mret (VStr c).

(** [RichView._render_table], up to and including [cut.applymap(str)]:
    the attributes of [self] as reassigned, and the rows to show. *)
Definition transform `{Externals} (self : View.t) (df : DataFrame) (reason : string)
  : result (View.t * DataFrame) :=
  (* Cut data to table data only *)
  sel ← df_select (View.column_headers self) df;
  let cut := df_head (Z.min (Z.of_nat (nrows df)) (View.nresults self)) sel in
  (* Bump season and game numbers by one *)
  season ← df_col "season" cut;
  new_season_column ← series_apply plusone season;
  day ← df_col "day" cut;
  new_game_column ← series_apply plusone day;
  let cut := df_assign "day" new_game_column
               (df_assign "season" new_season_column cut) in
  (* Create name and odds labels *)
  let pre :=
    if Options.win_loss (View.options self) then ["winning"; "losing"]
    else ["home"; "away"] in
  let style := Options.name_style (View.options self) in
  let namelabels :=
    if String.eqb style "short" then Some (map (fun j => j +:+ "TeamNickname") pre)
    else if String.eqb style "long" then Some (map (fun j => j +:+ "TeamName") pre)
    else if String.eqb style "emoji" then Some (map (fun j => j +:+ "TeamEmoji") pre)
    else None in
  let oddslabels := map (fun j => j +:+ "Odds") pre in
  (* Replace Team with Team (X%) *)
  cut ←
    (if String.eqb reason "underdog" then
       match namelabels with
       | None => Raise UnboundLocalError
       | Some namelabels =>
           foldR (fun cut '(namelabel, oddslabel) =>
                    except_KeyError
                      (pair ← df_select [namelabel; oddslabel] cut;
                       column ← df_apply_rows (addodds namelabel oddslabel) pair;
                       df_setitem namelabel column cut)
                      (Raise (SystemExit 1)))
                 (zip namelabels oddslabels) cut
       end
     else Ok cut);
  (* Remove the odds columns *)
  cut ← df_drop oddslabels cut;
  (* Remove the odds headers *)
  let column_headers :=
    filter (fun j => negb (str_contains "Odds" j)) (View.column_headers self) in
  let nice_column_headers :=
    filter (fun j => negb (str_contains "Odds" j)) (View.nice_column_headers self) in
  let self := set_headers self column_headers nice_column_headers in
  (* Format the isPostseason column for printing *)
  post ← df_col "isPostseason" cut;
  let new_postseason_column := map postseason_lambda post in
  let cut := df_assign "isPostseason" new_postseason_column cut in
  (* Format any column ending in "Emoji" as emoji *)
  cut ← foldR (fun cut column_header =>
                 if String.eqb (str_last 5 column_header) "Emoji" then
                   column ← df_col column_header cut;
                   new_column ← series_apply emoji_lambda column;
                   mret (df_assign column_header new_column cut)
                 else Ok cut)
              (View.column_headers self) cut;
  (* Make everything in the dataframe a string *)
  let cut := df_applymap (fun v => VStr (py_str v)) cut in
  mret (self, cut).

(** The [Table] that the rest of [_render_table] builds. *)
Definition build_table (self : View.t) (cut : DataFrame) : Table :=
  let table := {| table_columns := []; table_rows := [] |} in
  let table :=
    fold_left (fun table '(column_header, nice_column_header) =>
                 if String.eqb column_header "losingScore"
                    || String.eqb column_header "awayScore" then
                   (* Justify losing/away scores to the right *)
                   add_column nice_column_header JustifyRight table
                 else if String.eqb (View.name_style self) "emoji"
                         && String.eqb (str_last 5 column_header) "Emoji" then
                   (* Center emoji team name columns *)
                   add_column nice_column_header JustifyCenter table
                 else add_column nice_column_header JustifyDefault table)
              (zip (View.column_headers self) (View.nice_column_headers self))
              table in
  fold_left (fun table row => add_row (map snd row) table)
            (df_iterrows cut) table.

Definition _render_table `{Externals}
  (self : View.t) (description : string) (df : DataFrame) (reason : string)
  : result (View.t * list emitted) :=
  '(self, cut) ← transform self df reason;
  let table := build_table self cut in
  mret (self,
        [ConsolePrint (newline +:+ newline); ConsoleTable table;
         ConsolePrint newline; Print description;
         ConsolePrint (newline +:+ newline)]).

(** [RichView.make_table] over the tables that [self.game_data.parse()]
    returned. *)
Definition make_table `{Externals} (self : View.t) (tables : list (string * DataFrame))
  : result (View.t * list emitted) :=
  foldR (fun '(self, out) '(reason, df) =>
           desc ← View.table_description self reason;
           '(self, out') ← _render_table self desc df reason;
           mret (self, (out ++ out')%list))
        tables (self, []).

End RichView.

(** ** [MarkdownView] *)

Module MarkdownView.

(** The lambdas that [_render_table] defines on its way. *)
Definition plusone (x : pyval) : result pyval := add_one x.

Definition addodds `{Externals} (namelabel oddslabel : string) (row : Row)
  : result pyval :=
  name ← row_get namelabel row;
  odds ← row_get oddslabel row;
  scaled ← times100 odds;
  percent ← py_round scaled;
  format_name_odds name percent.

Definition postseason_lambda (c : pyval) : pyval :=
  match c with
  | VBool false => VStr ""
  | _ => VStr "*"
  end.

Definition emoji_lambda (x : pyval) : result pyval :=
  n ← int16 x; c ← chr n; mret (VStr c).

(** [MarkdownView._render_table], up to and including
    [cut.applymap(str)]. *)
Definition transform `{Externals} (self : View.t) (df : DataFrame) (reason : string)
  : result (View.t * DataFrame) :=
  (* Cut data to table data only *)
  sel ← df_select (View.column_headers self) df;
  let cut := df_head (Z.min (Z.of_nat (nrows df)) (View.nresults self)) sel in
  (* Bump season and game numbers by one *)
  season ← df_col "season" cut;
  new_season_column ← series_apply plusone season;
  day ← df_col "day" cut;
  new_game_column ← series_apply plusone day;
  let cut := df_assign "day" new_game_column
               (df_assign "season" new_season_column cut) in
  (* Create name and odds labels *)
  let pre :=
    if Options.win_loss (View.options self) then ["winning"; "losing"]
    else ["home"; "away"] in
  let style := Options.name_style (View.options self) in
  let namelabels :=
    if String.eqb style "short" then Some (map (fun j => j +:+ "TeamNickname") pre)
    else if String.eqb style "long" then Some (map (fun j => j +:+ "TeamName") pre)
    else if String.eqb style "emoji" then Some (map (fun j => j +:+ "TeamEmoji") pre)
    else None in
  let oddslabels := map (fun j => j +:+ "Odds") pre in
  (* Replace Team with Team (X%) *)
  cut ←
    (if String.eqb reason "underdog" then
       match namelabels with
       | None => Raise UnboundLocalError
       | Some namelabels =>
           foldR (fun cut '(namelabel, oddslabel) =>
                    except_KeyError
                      (pair ← df_select [namelabel; oddslabel] cut;
                       column ← df_apply_rows (addodds namelabel oddslabel) pair;
                       df_setitem namelabel column cut)
                      (Raise (SystemExit 1)))
                 (zip namelabels oddslabels) cut
       end
     else Ok cut);
  (* Remove the odds columns *)
  cut ← df_drop oddslabels cut;
  (* Remove the odds headers *)
  let column_headers :=
    filter (fun j => negb (str_contains "Odds" j)) (View.column_headers self) in
  let nice_column_headers :=
    filter (fun j => negb (str_contains "Odds" j)) (View.nice_column_headers self) in
  let self := set_headers self column_headers nice_column_headers in
  (* Format the isPostseason column for printing *)
  post ← df_col "isPostseason" cut;
  let new_postseason_column := map postseason_lambda post in
  let cut := df_assign "isPostseason" new_postseason_column cut in
  (* Format any column ending in "Emoji" as emoji *)
  cut ← foldR (fun cut column_header =>
                 if String.eqb (str_last 5 column_header) "Emoji" then
                   column ← df_col column_header cut;
                   new_column ← series_apply emoji_lambda column;
                   mret (df_assign column_header new_column cut)
                 else Ok cut)
              (View.column_headers self) cut;
  (* Make everything in the dataframe a string *)
  let cut := df_applymap (fun v => VStr (py_str v)) cut in
  mret (self, cut).

(** The header line and the separator line of the Markdown table. *)
Definition header_lines (self : View.t) : string * string :=
  (* Start header line *)
  let table_header := "| " in
  (* Start separator line (controls alignment) *)
  let table_sep := "| " in
  fold_left (fun '(table_header, table_sep) '(column_header, nice_column_header) =>
               if String.eqb column_header "isPostseason" then
                 (table_header, table_sep)
               else
                 let table_header := table_header +:+ nice_column_header +:+ " | " in
                 if String.eqb column_header "losingScore"
                    || String.eqb column_header "awayScore" then
                   (* Justify losing/away scores to the right *)
                   (table_header, table_sep +:+ "------: | ")
                 else if String.eqb (View.name_style self) "emoji"
                         && String.eqb (str_last 5 column_header) "Emoji" then
                   (* Center emoji team name columns *)
                   (table_header, table_sep +:+ ":------: | ")
                 else (table_header, table_sep +:+ "------ |"))
            (zip (View.column_headers self) (View.nice_column_headers self))
            (table_header, table_sep).

(** The line of one row. *)
Definition row_line `{Externals} (row : Row) : result string :=
  foldR (fun table_row '(k, val) =>
           if String.eqb k "isPostseason" then Ok table_row
           else if String.eqb k "day" then
             post ← row_get "isPostseason" row;
             mret (table_row +:+ py_str val +:+ py_str post +:+ " | ")
           else Ok (table_row +:+ py_str val +:+ " | "))
        row "| ".

(** The table as Markdown text. *)
Definition build_table `{Externals} (self : View.t) (cut : DataFrame)
  : result string :=
  (* This string is the final table in Markdown format *)
  let table := "" in
  let '(table_header, table_sep) := header_lines self in
  let table := table +:+ table_header in
  let table := table +:+ newline in
  let table := table +:+ table_sep in
  let table := table +:+ newline in
  foldR (fun table row =>
           table_row ← row_line row;
           mret (table +:+ table_row +:+ newline))
        (df_iterrows cut) table.

Definition _render_table `{Externals}
  (self : View.t) (description : string) (df : DataFrame) (reason : string)
  : result (View.t * list emitted) :=
  '(self, cut) ← transform self df reason;
  table ← build_table self cut;
  match View.output_file self with
  | None =>
      mret (self, [Print (newline +:+ newline); Print description;
                   Print newline; Print table])
  | Some f =>
      mret (self, [FileAppend f (newline +:+ newline); FileAppend f description;
                   FileAppend f newline; FileAppend f table])
  end.

(** [MarkdownView.make_table] over the tables that
    [self.game_data.parse()] returned. *)
Definition make_table `{Externals} (self : View.t) (tables : list (string * DataFrame))
  : result (View.t * list emitted) :=
  foldR (fun '(self, out) '(reason, df) =>
           desc ← View.table_description self reason;
           let desc := desc +:+ " (asterisk indicates a postseason game)" in
           '(self, out') ← _render_table self desc df reason;
           mret (self, (out ++ out')%list))
        tables (self, []).

End MarkdownView.

(** ** The stages of [_render_table]

    The same computation as the two [transform] definitions above, cut into
    its steps and with the postseason lambda as a parameter.  The two
    methods are shown equal to it below, so that a fact about a step is
    proved once. *)

(** [pre] *)
Definition sides (self : View.t) : list string :=
  if Options.win_loss (View.options self) then ["winning"; "losing"]
  else ["home"; "away"].

(** [namelabels], or [None] where the method leaves the name unbound. *)
Definition name_labels (self : View.t) : option (list string) :=
  let style := Options.name_style (View.options self) in
  if String.eqb style "short" then Some (map (fun j => j +:+ "TeamNickname") (sides self))
  else if String.eqb style "long" then Some (map (fun j => j +:+ "TeamName") (sides self))
  else if String.eqb style "emoji" then Some (map (fun j => j +:+ "TeamEmoji") (sides self))
  else None.

(** [oddslabels] *)
Definition odds_labels (self : View.t) : list string :=
  map (fun j => j +:+ "Odds") (sides self).

(** Step 1: the planned columns of the first rows. *)
Definition stage_cut (self : View.t) (df : DataFrame) : result DataFrame :=
  sel ← df_select (View.column_headers self) df;
  mret (df_head (Z.min (Z.of_nat (nrows df)) (View.nresults self)) sel).

(** Step 2: seasons and days from 1. *)
Definition stage_reindex (cut : DataFrame) : result DataFrame :=
  season ← df_col "season" cut;
  new_season_column ← series_apply add_one season;
  day ← df_col "day" cut;
  new_game_column ← series_apply add_one day;
  mret (df_assign "day" new_game_column (df_assign "season" new_season_column cut)).

(** One turn of the loop of step 4. *)
Definition annotate `{Externals} (cut : DataFrame) (labels : string * string)
  : result DataFrame :=
  let '(namelabel, oddslabel) := labels in
  except_KeyError
    (pair ← df_select [namelabel; oddslabel] cut;
     column ← df_apply_rows (RichView.addodds namelabel oddslabel) pair;
     df_setitem namelabel column cut)
    (Raise (SystemExit 1)).

(** Steps 3 and 4: the odds written into the names of an underdog table. *)
Definition stage_odds `{Externals} (self : View.t) (reason : string) (cut : DataFrame)
  : result DataFrame :=
  if String.eqb reason "underdog" then
    match name_labels self with
    | None => Raise UnboundLocalError
    | Some namelabels => foldR annotate (zip namelabels (odds_labels self)) cut
    end
  else Ok cut.

(** The filter of step 5 on a list of headers. *)
Definition prune (headers : list string) : list string :=
  filter (fun j => negb (str_contains "Odds" j)) headers.

(** Step 6, for a given postseason lambda. *)
Definition stage_post (glyph : pyval -> pyval) (cut : DataFrame) : result DataFrame :=
  post ← df_col "isPostseason" cut;
  mret (df_assign "isPostseason" (map glyph post) cut).

(** One turn of the loop of step 7. *)
Definition decode_column (cut : DataFrame) (column_header : string) : result DataFrame :=
  if String.eqb (str_last 5 column_header) "Emoji" then
    column ← df_col column_header cut;
    new_column ← series_apply RichView.emoji_lambda column;
    mret (df_assign column_header new_column cut)
  else Ok cut.

(** Step 8. *)
Definition stage_str `{Externals} (cut : DataFrame) : DataFrame :=
  df_applymap (fun v => VStr (py_str v)) cut.

Definition pipeline `{Externals} (glyph : pyval -> pyval)
  (self : View.t) (df : DataFrame) (reason : string)
  : result (View.t * DataFrame) :=
  cut ← stage_cut self df;
  cut ← stage_reindex cut;
  cut ← stage_odds self reason cut;
  cut ← df_drop (odds_labels self) cut;
  let self :=
    set_headers self (prune (View.column_headers self))
                     (prune (View.nice_column_headers self)) in
  cut ← stage_post glyph cut;
  cut ← foldR decode_column (View.column_headers self) cut;
  mret (self, stage_str cut).

(** The number of rows that [_render_table] keeps. *)
Definition kept (self : View.t) (df : DataFrame) : nat :=
  slice_stop (Z.min (Z.of_nat (nrows df)) (View.nresults self)) (nrows df).


(** The value in column [k] of row [i]. *)
Definition cell (k : string) (i : nat) (df : DataFrame) : option pyval :=
  c ← lookup_col k (data df); c !! i.

(** The name label and the odds label of each side, as the loop of step 4
    pairs them; none when the name style is not a known one. *)
Definition side_labels (self : View.t) : list (string * string) :=
  match name_labels self with
  | Some namelabels => zip namelabels (odds_labels self)
  | None => []
  end.

(** ** The wording of the specification, to compare the code with *)

(** All the strings of a list, one after the other. *)
Definition concat_all (l : list string) : string := fold_right String.append "" l.

(** The test of the two renderers on a column name: right for the names
    [losingScore] and [awayScore], centred for a name ending in [Emoji]
    when the name style is emoji, the default otherwise. *)
Definition column_justify (style key : string) : justify :=
  if list_contains key ["losingScore"; "awayScore"] then JustifyRight
  else if String.eqb style "emoji" && String.eqb (str_last 5 key) "Emoji"
  then JustifyCenter
  else JustifyDefault.

(** The score column of a plan, which holds the scores of both sides, the
    losing or away score with them. *)
Definition score_key (options : Options.t) : string :=
  if Options.win_loss options then "winningLosingScore" else "homeAwayScore".

(** The justification that the specification asks for: right for a column
    that holds the losing or away score, centred for an emoji name column
    when the name style is emoji, the default otherwise. *)
Definition spec_justify (style key : string) : justify :=
  if list_contains key ["winningLosingScore"; "homeAwayScore";
                         "losingScore"; "awayScore"]
  then JustifyRight
  else if String.eqb style "emoji" && String.eqb (str_last 5 key) "Emoji"
  then JustifyCenter
  else JustifyDefault.

(** The justification that the columns of a plan do get: centred for an
    emoji name column when the name style is emoji, the default for every
    other column, the score column among them. *)
Definition planned_justify (style key : string) : justify :=
  if String.eqb style "emoji" && String.eqb (str_last 5 key) "Emoji"
  then JustifyCenter
  else JustifyDefault.

(** The alignment marker of the Markdown separator line, as
    [MarkdownView] writes it. *)
Definition md_marker (j : justify) : string :=
  match j with
  | JustifyRight => "------: | "
  | JustifyCenter => ":------: | "
  | JustifyDefault => "------ |"
  end.

(** The text of one cell of a Markdown row: none for the postseason column,
    the value followed by the postseason glyph for the day, the value
    otherwise. *)
Definition md_cell `{Externals} (glyph : string) (kv : string * pyval) : string :=
  if String.eqb kv.1 "isPostseason" then ""
  else if String.eqb kv.1 "day" then py_str kv.2 +:+ glyph +:+ " | "
  else py_str kv.2 +:+ " | ".

(** The line of row [i] in the Markdown table of the rows [cut], whose
    postseason column is [post]. *)
Definition md_line `{Externals} (cut : DataFrame) (post : list pyval) (i : nat)
  : string :=
  "| " +:+ concat_all (map (md_cell (py_str (default VNone (post !! i))))
                           (df_row cut i)).

(** The text of one label of the Markdown header line. *)
Definition md_label (kn : string * string) : string :=
  if String.eqb kn.1 "isPostseason" then "" else kn.2 +:+ " | ".

(** The text of one marker of the Markdown separator line. *)
Definition md_separator (style : string) (kn : string * string) : string :=
  if String.eqb kn.1 "isPostseason" then ""
  else md_marker (column_justify style kn.1).

(** The Markdown glyph that stands for a glyph of the interactive table. *)
Definition markdown_glyph (v : pyval) : pyval :=
  match v with
  | VStr s => if String.eqb s " " then VStr ""
              else if String.eqb s "Y" then VStr "*" else v
  | _ => v
  end.

(** Transformed rows with the postseason column rewritten from the glyphs
    of the interactive table to those of the Markdown table. *)
Definition reglyph (cut : DataFrame) : DataFrame :=
  match lookup_col "isPostseason" (data cut) with
  | Some c => df_assign "isPostseason" (map markdown_glyph c) cut
  | None => cut
  end.

(** The filter categories of the specification, with the name that
    [view.py] knows each by and the phrase that opens its caption. *)
Inductive FilterCategory : Type :=
  Blowout | Shutout | Shame | Underdog | Maxedout | Defensive.

Definition category_name (c : FilterCategory) : string :=
  match c with
  | Blowout => "blowout"
  | Shutout => "shutout"
  | Shame => "shame"
  | Underdog => "underdog"
  | Maxedout => "maxedout"
  | Defensive => "defensive"
  end.

Definition category_phrase (c : FilterCategory) : string :=
  match c with
  | Blowout => "Blowout games (games with high scores and high run differentials) "
  | Shutout => "Shutout games (games where the loser had zero runs) "
  | Shame => "Shame games (games where the loser was shamed) "
  | Underdog =>
      "Underdog games (games where the underdog won with large run differential) "
  | Maxedout => "Maxed out games (high-scoring one-run games) "
  | Defensive => "Defensive games (low-scoring one-run games) "
  end.

(** Labels joined by commas: each label, with a comma and a space between
    one and the next. *)
Definition comma_joined (labels : list string) : string := String.concat ", " labels.

(** The scope of a caption: all time when the selector has the token
    [all], one season, or several seasons joined by commas. *)
Definition scope_phrase (season : list string) : string :=
  if list_contains "all" season then "for all time "
  else match season with
       | [x] => "for season " +:+ x +:+ " "
       | _ => "for seasons " +:+ comma_joined season +:+ " "
       end.

Definition postseason_phrase (postseason : bool) : string :=
  if postseason then "(postseason only) " else "".

(** The teams of a caption as the specification words them: the one team,
    all teams when the selected set equals the roster, or the selected
    teams joined by commas. *)
Definition team_phrase `{Externals} (team : list string) : string :=
  match team with
  | [x] => "for team " +:+ x
  | _ =>
      if bool_decide (list_to_set team =@{gset string} list_to_set ALLTEAMS)
      then "for all teams"
      else "for teams " +:+ comma_joined team
  end.

(** The teams of a caption, with all teams for a selection that has every
    team of the roster in it, whatever else it has. *)
Definition team_phrase_amended `{Externals} (team : list string) : string :=
  match team with
  | [x] => "for team " +:+ x
  | _ =>
      if forallb (fun t => list_contains t team) ALLTEAMS
      then "for all teams"
      else "for teams " +:+ comma_joined team
  end.

Definition footer : string :=
  " (note: all days and seasons displayed are 1-indexed)".

(** [self] with another season selector. *)
Definition set_season (self : View.t) (season : list string) : View.t :=
  let o := View.options self in
  {| View.nresults := View.nresults self;
     View.column_headers := View.column_headers self;
     View.nice_column_headers := View.nice_column_headers self;
     View.name_style := View.name_style self;
     View.options :=
       {| Options.n_results := Options.n_results o;
          Options.name_style := Options.name_style o;
          Options.win_loss := Options.win_loss o;
          Options.home_away := Options.home_away o;
          Options.winning_pitcher := Options.winning_pitcher o;
          Options.losing_pitcher := Options.losing_pitcher o;
          Options.home_pitcher := Options.home_pitcher o;
          Options.away_pitcher := Options.away_pitcher o;
          Options.season := season;
          Options.postseason := Options.postseason o;
          Options.team := Options.team o;
          Options.output := Options.output o |};
     View.output_file := View.output_file self |}.

(** [self] with another team selector. *)
Definition set_team (self : View.t) (team : list string) : View.t :=
  let o := View.options self in
  {| View.nresults := View.nresults self;
     View.column_headers := View.column_headers self;
     View.nice_column_headers := View.nice_column_headers self;
     View.name_style := View.name_style self;
     View.options :=
       {| Options.n_results := Options.n_results o;
          Options.name_style := Options.name_style o;
          Options.win_loss := Options.win_loss o;
          Options.home_away := Options.home_away o;
          Options.winning_pitcher := Options.winning_pitcher o;
          Options.losing_pitcher := Options.losing_pitcher o;
          Options.home_pitcher := Options.home_pitcher o;
          Options.away_pitcher := Options.away_pitcher o;
          Options.season := Options.season o;
          Options.postseason := Options.postseason o;
          Options.team := team;
          Options.output := Options.output o |};
     View.output_file := View.output_file self |}.

(** [p] is the nearest integer to [num / den], for [0 < den], and is even
    when [num / den] lies half way between two integers. *)
Definition nearest_ties_even (p num den : Z) : Prop :=
  2 * Z.abs (p * den - num) <= den /\
  (2 * Z.abs (p * den - num) = den -> Z.even p = true).

(** The value of a finite float as a fraction [(num, den)] with [0 < den]. *)
Definition float_fraction (s : bool) (m : positive) (e : Z) : Z * Z :=
  let sign := if s then -1 else 1 in
  match e with
  | Zneg p => (sign * Zpos m, 2 ^ Zpos p)
  | _ => (sign * Zpos m * 2 ^ e, 1)
  end.

(** The decimal [num / den] is written as the normal binary64 number
    [m * 2 ^ (- k)]: no other float is nearer to it. *)
Definition nearest_binary64 (num den : Z) (m : positive) (k : Z) : Prop :=
  2 ^ 52 <= Zpos m < 2 ^ 53 /\ 2 * Z.abs (num * 2 ^ k - Zpos m * den) <= den.

(** ** Sample data *)

Definition sample_externals : Externals :=
  {| repr_float := fun _ => "0.0";
     ALLTEAMS := ["Tigers"; "Moist Talkers"; "Crabs"];
     REASON2FUNCTION_keys :=
       ["blowout"; "shutout"; "shame"; "underdog"; "maxedout"; "defensive"];
     path_exists := fun path => list_contains path ["games.md"; "/home/blaseball"];
     abspath := fun path =>
       if String.eqb path "" then "/home/blaseball"
       else "/home/blaseball/" +:+ path;
     dirname := fun path =>
       if String.eqb path "missing/games.md" then "missing" else "" |}.

(** The floats [0.37] and [0.005]. *)
Definition float_0_37 : spec_float := S754_finite false 6665327448508334 (-54).
Definition float_0_005 : spec_float := S754_finite false 5764607523034235 (-60).

Definition sample_options : Options.t :=
  {| Options.n_results := 5;
     Options.name_style := "long";
     Options.win_loss := true;
     Options.home_away := false;
     Options.winning_pitcher := false;
     Options.losing_pitcher := false;
     Options.home_pitcher := false;
     Options.away_pitcher := false;
     Options.season := ["3"; "all"];
     Options.postseason := true;
     Options.team := ["Crabs"; "Tigers"; "Moist Talkers"];
     Options.output := "" |}.

(** No orientation flag. *)
Definition sample_options_no_orientation : Options.t :=
  {| Options.n_results := 5;
     Options.name_style := "long";
     Options.win_loss := false;
     Options.home_away := false;
     Options.winning_pitcher := true;
     Options.losing_pitcher := false;
     Options.home_pitcher := false;
     Options.away_pitcher := false;
     Options.season := ["all"];
     Options.postseason := false;
     Options.team := ["Tigers"];
     Options.output := "" |}.

(** A name style that is none of [NAMESTYLE_CHOICES]. *)
Definition sample_options_bad_style : Options.t :=
  {| Options.n_results := 5;
     Options.name_style := "fancy";
     Options.win_loss := true;
     Options.home_away := false;
     Options.winning_pitcher := false;
     Options.losing_pitcher := false;
     Options.home_pitcher := false;
     Options.away_pitcher := false;
     Options.season := ["all"];
     Options.postseason := false;
     Options.team := ["Tigers"];
     Options.output := "" |}.

(** The view that [View.__init__] makes of [sample_options]. *)
Definition sample_view : View.t :=
  {| View.nresults := 5;
     View.column_headers :=
       ["season"; "day"; "isPostseason"; "winningTeamName"; "winningOdds";
        "winningLosingScore"; "losingOdds"; "losingTeamName"];
     View.nice_column_headers :=
       ["Sea"; "Day"; "Post"; "Winner"; "W Odds"; "Score"; "L Odds"; "Loser"];
     View.name_style := "long";
     View.options := sample_options;
     View.output_file := None |}.

(** Two games, the second one of the postseason. *)
Definition sample_df : DataFrame :=
  {| nrows := 2;
     data :=
       [("season", [VInt 2; VInt 3]);
        ("day", [VInt 98; VInt 0]);
        ("isPostseason", [VBool false; VBool true]);
        ("winningTeamName", [VStr "Moist Talkers"; VStr "Tigers"]);
        ("winningOdds", [VFloat float_0_37; VFloat float_0_005]);
        ("winningLosingScore", [VStr "10 - 2"; VStr "5 - 0"]);
        ("losingOdds", [VFloat float_0_005; VFloat float_0_37]);
        ("losingTeamName", [VStr "Crabs"; VStr "Moist Talkers"])] |}.

(** The row that [addodds] gets for the first side of the first game. *)
Definition sample_row : Row :=
  [("winningTeamName", VStr "Moist Talkers"); ("winningOdds", VFloat float_0_37)].

(** The same team with odds of [0.005]. *)
Definition sample_row_half : Row :=
  [("winningTeamName", VStr "Moist Talkers"); ("winningOdds", VFloat float_0_005)].

(** [sample_view] after its first table: the odds entries are gone. *)
Definition sample_view_pruned : View.t :=
  set_headers sample_view
    ["season"; "day"; "isPostseason"; "winningTeamName"; "winningLosingScore";
     "losingTeamName"]
    ["Sea"; "Day"; "Post"; "Winner"; "Score"; "Loser"].

(** The rows of [sample_df] as the interactive renderer shows them in a
    blowout table. *)
Definition sample_cut_rich : DataFrame :=
  {| nrows := 2;
     data :=
       [("season", [VStr "3"; VStr "4"]);
        ("day", [VStr "99"; VStr "1"]);
        ("isPostseason", [VStr " "; VStr "Y"]);
        ("winningTeamName", [VStr "Moist Talkers"; VStr "Tigers"]);
        ("winningLosingScore", [VStr "10 - 2"; VStr "5 - 0"]);
        ("losingTeamName", [VStr "Crabs"; VStr "Moist Talkers"])] |}.

(** The same rows as the Markdown renderer has them. *)
Definition sample_cut_markdown : DataFrame :=
  {| nrows := 2;
     data :=
       [("season", [VStr "3"; VStr "4"]);
        ("day", [VStr "99"; VStr "1"]);
        ("isPostseason", [VStr ""; VStr "*"]);
        ("winningTeamName", [VStr "Moist Talkers"; VStr "Tigers"]);
        ("winningLosingScore", [VStr "10 - 2"; VStr "5 - 0"]);
        ("losingTeamName", [VStr "Crabs"; VStr "Moist Talkers"])] |}.

(** A frame whose postseason column holds [None] and [0]. *)
Definition sample_df_odd_flags : DataFrame :=
  {| nrows := 2;
     data :=
       [("season", [VInt 2; VInt 3]);
        ("day", [VInt 98; VInt 0]);
        ("isPostseason", [VNone; VInt 0]);
        ("winningTeamName", [VStr "Moist Talkers"; VStr "Tigers"]);
        ("winningOdds", [VFloat float_0_37; VFloat float_0_005]);
        ("winningLosingScore", [VStr "10 - 2"; VStr "5 - 0"]);
        ("losingOdds", [VFloat float_0_005; VFloat float_0_37]);
        ("losingTeamName", [VStr "Crabs"; VStr "Moist Talkers"])] |}.

Definition sample_cut_odd_flags : DataFrame :=
  {| nrows := 2;
     data :=
       [("season", [VStr "3"; VStr "4"]);
        ("day", [VStr "99"; VStr "1"]);
        ("isPostseason", [VStr "Y"; VStr "Y"]);
        ("winningTeamName", [VStr "Moist Talkers"; VStr "Tigers"]);
        ("winningLosingScore", [VStr "10 - 2"; VStr "5 - 0"]);
        ("losingTeamName", [VStr "Crabs"; VStr "Moist Talkers"])] |}.

(** The emoji style: the names are hexadecimal code points. *)
Definition sample_options_emoji : Options.t :=
  {| Options.n_results := 5;
     Options.name_style := "emoji";
     Options.win_loss := true;
     Options.home_away := false;
     Options.winning_pitcher := false;
     Options.losing_pitcher := false;
     Options.home_pitcher := false;
     Options.away_pitcher := false;
     Options.season := ["all"];
     Options.postseason := false;
     Options.team := ["Tigers"];
     Options.output := "" |}.

Definition sample_view_emoji : View.t :=
  {| View.nresults := 5;
     View.column_headers :=
       ["season"; "day"; "isPostseason"; "winningTeamEmoji"; "winningOdds";
        "winningLosingScore"; "losingOdds"; "losingTeamEmoji"];
     View.nice_column_headers :=
       ["Sea"; "Day"; "Post"; "Winner"; "W Odds"; "Score"; "L Odds"; "Loser"];
     View.name_style := "emoji";
     View.options := sample_options_emoji;
     View.output_file := None |}.

Definition sample_df_emoji : DataFrame :=
  {| nrows := 1;
     data :=
       [("season", [VInt 2]);
        ("day", [VInt 98]);
        ("isPostseason", [VBool false]);
        ("winningTeamEmoji", [VStr "0x41"]);
        ("winningOdds", [VFloat float_0_37]);
        ("winningLosingScore", [VStr "10 - 2"]);
        ("losingOdds", [VFloat float_0_005]);
        ("losingTeamEmoji", [VStr "0x42"])] |}.

(** The rows of [sample_df] as the interactive renderer shows them in an
    underdog table. *)
Definition sample_cut_underdog : DataFrame :=
  {| nrows := 2;
     data :=
       [("season", [VStr "3"; VStr "4"]);
        ("day", [VStr "99"; VStr "1"]);
        ("isPostseason", [VStr " "; VStr "Y"]);
        ("winningTeamName", [VStr "Moist Talkers (37%)"; VStr "Tigers (0%)"]);
        ("winningLosingScore", [VStr "10 - 2"; VStr "5 - 0"]);
        ("losingTeamName", [VStr "Crabs (0%)"; VStr "Moist Talkers (37%)"])] |}.

(** [sample_view] for the seasons 3 and 4 and two teams of the roster. *)
Definition sample_view_two : View.t :=
  set_team (set_season sample_view ["3"; "4"]) ["Tigers"; "Crabs"].

(** [sample_view] for the whole roster and a name that is not of it. *)
Definition sample_view_superset : View.t :=
  set_team sample_view ["Tigers"; "Moist Talkers"; "Crabs"; "Nobody"].

(** * Properties *)

(** ** The error monad *)

Lemma bind_Ok {A B} (m : result A) (f : A -> result B) (b : B) :
  m ≫= f = Ok b -> exists a, m = Ok a /\ f a = Ok b.
Proof. destruct m as [a|e]; simpl; [eauto | discriminate]. Qed.

Lemma bind_Raise_l {A B} (f : A -> result B) (e : exn) : Raise e ≫= f = Raise e.
Proof. reflexivity. Qed.

Lemma bind_Ok_l {A B} (f : A -> result B) (a : A) : Ok a ≫= f = f a.
Proof. reflexivity. Qed.

Lemma is_Raise_bind {A B} (m : result A) (f : A -> result B) :
  (forall a, m = Ok a -> is_Raise (f a)) -> is_Raise (m ≫= f).
Proof.
  intros Hf. destruct m as [a|e]; simpl.
  - now apply Hf.
  - now exists e.
Qed.

(** ** The two methods and the staged pipeline *)

Ltac transform_is_pipeline :=
  unfold pipeline, stage_cut, stage_reindex, stage_post;
  repeat
    (rewrite ?bind_Ok_l;
     match goal with
     | |- ?m ≫= _ = ?m' ≫= _ =>
         change m' with m; destruct m; [|reflexivity]
     | |- ?m ≫= _ = (?m' ≫= _) ≫= _ =>
         change m' with m; destruct m; [|reflexivity]
     end);
  reflexivity.

Lemma RichView_transform_pipeline `{Externals} self df reason :
  RichView.transform self df reason
  = pipeline RichView.postseason_lambda self df reason.
Proof. unfold RichView.transform. transform_is_pipeline. Qed.

Lemma MarkdownView_transform_pipeline `{Externals} self df reason :
  MarkdownView.transform self df reason
  = pipeline MarkdownView.postseason_lambda self df reason.
Proof. unfold MarkdownView.transform. transform_is_pipeline. Qed.

(** ** Lists in the error monad *)

Lemma mapR_Ok_length {A B} (f : A -> result B) l l' :
  mapR f l = Ok l' -> length l' = length l.
Proof.
  revert l'. induction l as [|x l IH]; simpl; intros l' Hl.
  - now inversion Hl.
  - apply bind_Ok in Hl as (y & _ & Hl). apply bind_Ok in Hl as (ys & Hys & Hl).
    inversion Hl; subst. simpl. f_equal. now apply IH.
Qed.

Lemma mapR_Ok_lookup {A B} (f : A -> result B) l l' i x :
  mapR f l = Ok l' -> l !! i = Some x ->
  exists y, l' !! i = Some y /\ f x = Ok y.
Proof.
  revert l' i. induction l as [|x0 l IH]; simpl; intros l' i Hl Hi.
  - discriminate.
  - apply bind_Ok in Hl as (y & Hy & Hl). apply bind_Ok in Hl as (ys & Hys & Hl).
    inversion Hl; subst. destruct i as [|i]; simpl in *.
    + inversion Hi; subst. eauto.
    + eauto.
Qed.

Lemma mapR_total {A B} (f : A -> B) (l : list A) :
  mapR (fun x => Ok (f x)) l = Ok (map f l).
Proof. induction l as [|x l IH]; simpl; [reflexivity|]. now rewrite IH. Qed.

Lemma mapR_ext {A B} (f g : A -> result B) l :
  (forall x, f x = g x) -> mapR f l = mapR g l.
Proof. intros E. induction l as [|x l IH]; simpl; [reflexivity|]. now rewrite E, IH. Qed.

(** ** Columns through the frame operations *)

Lemma list_contains_spec x l : list_contains x l = true <-> In x l.
Proof.
  unfold list_contains. rewrite existsb_exists. split.
  - intros (y & Hy & E). apply String.eqb_eq in E. now subst.
  - intros Hx. exists x. split; [assumption | apply String.eqb_refl].
Qed.

Lemma list_contains_cons x y l :
  list_contains x (y :: l) = String.eqb x y || list_contains x l.
Proof. reflexivity. Qed.

Lemma df_col_Ok k df c : df_col k df = Ok c <-> lookup_col k (data df) = Some c.
Proof.
  unfold df_col. destruct (lookup_col k (data df)); split; intros E;
    inversion E; reflexivity.
Qed.

Lemma df_col_Raise k df e : df_col k df = Raise e -> lookup_col k (data df) = None.
Proof. unfold df_col. now destruct (lookup_col k (data df)). Qed.

Lemma lookup_col_None_df_col k df :
  lookup_col k (data df) = None -> df_col k df = Raise KeyError.
Proof. unfold df_col. now intros ->. Qed.

Lemma select_cols k ks df cols :
  mapR (fun k => c ← df_col k df; mret (k, c)) ks = Ok cols ->
  lookup_col k cols = if list_contains k ks then lookup_col k (data df) else None.
Proof.
  revert cols. induction ks as [|k0 ks IH]; intros cols Hc; simpl in Hc.
  - now inversion Hc.
  - apply bind_Ok in Hc as (kc & Hkc & Hc). apply bind_Ok in Hc as (cols' & Hcols & Hc).
    inversion Hc; subst. apply bind_Ok in Hkc as (c & Hcol & Hkc).
    inversion Hkc; subst. rewrite list_contains_cons. cbn [lookup_col].
    destruct (String.eqb_spec k k0) as [->|Hne]; simpl.
    + symmetry. now apply df_col_Ok.
    + now apply IH.
Qed.

Lemma select_keys ks df cols :
  mapR (fun k => c ← df_col k df; mret (k, c)) ks = Ok cols -> map fst cols = ks.
Proof.
  revert cols. induction ks as [|k0 ks IH]; simpl; intros cols Hc.
  - now inversion Hc.
  - apply bind_Ok in Hc as (kc & Hkc & Hc). apply bind_Ok in Hc as (cols' & Hcols & Hc).
    inversion Hc; subst. apply bind_Ok in Hkc as (c & Hcol & Hkc).
    inversion Hkc; subst. simpl. f_equal. now apply IH.
Qed.

Lemma df_select_Ok ks df d :
  df_select ks df = Ok d ->
  nrows d = nrows df /\ df_columns d = ks /\
  forall k, lookup_col k (data d)
            = if list_contains k ks then lookup_col k (data df) else None.
Proof.
  unfold df_select. intros Hd. apply bind_Ok in Hd as (cols & Hcols & Hd).
  inversion Hd; subst; simpl. split; [reflexivity|]. split.
  - now apply select_keys with df.
  - intros k. now apply select_cols.
Qed.

Lemma lookup_col_map k (f : list pyval -> list pyval) cols :
  lookup_col k (map (fun kc => (kc.1, f kc.2)) cols) = f <$> lookup_col k cols.
Proof.
  induction cols as [|[k' c] cols IH]; simpl; [reflexivity|].
  destruct (String.eqb k k'); [reflexivity | exact IH].
Qed.

Lemma lookup_col_head k n df :
  lookup_col k (data (df_head n df))
  = take (slice_stop n (nrows df)) <$> lookup_col k (data df).
Proof. apply lookup_col_map. Qed.

Lemma lookup_col_set_col k k' c cols :
  lookup_col k (set_col k' c cols)
  = if String.eqb k k' then Some c else lookup_col k cols.
Proof.
  induction cols as [|[k0 c0] cols IH]; simpl.
  - now destruct (String.eqb k k').
  - destruct (String.eqb_spec k' k0) as [->|Hne]; simpl.
    + now destruct (String.eqb k k0).
    + destruct (String.eqb_spec k k0) as [->|Hne'].
      * destruct (String.eqb_spec k0 k') as [->|]; [congruence | reflexivity].
      * exact IH.
Qed.

Lemma lookup_col_assign k k' c df :
  lookup_col k (data (df_assign k' c df))
  = if String.eqb k k' then Some c else lookup_col k (data df).
Proof. apply lookup_col_set_col. Qed.

Lemma lookup_col_filter k (p : string -> bool) cols :
  lookup_col k (filter (fun kc => p kc.1) cols)
  = if p k then lookup_col k cols else None.
Proof.
  induction cols as [|[k0 c0] cols IH]; simpl.
  - now destruct (p k).
  - rewrite filter_cons. simpl. destruct (decide (p k0)) as [Hp0|Hp0].
    + apply Is_true_true in Hp0. simpl.
      destruct (String.eqb_spec k k0) as [->|Hne]; [now rewrite Hp0 | exact IH].
    + apply Is_true_false in Hp0.
      destruct (String.eqb_spec k k0) as [->|Hne]; [now rewrite IH, Hp0 | exact IH].
Qed.

Lemma df_drop_Ok labels df d :
  df_drop labels df = Ok d ->
  nrows d = nrows df /\
  (forall l, In l labels -> is_Some (lookup_col l (data df))) /\
  forall k, lookup_col k (data d)
            = if list_contains k labels then None else lookup_col k (data df).
Proof.
  unfold df_drop. destruct (forallb (has_col df) labels) eqn:Hall; [|discriminate].
  intros Hd. inversion Hd; subst; simpl. split; [reflexivity|]. split.
  - intros l Hl. rewrite forallb_forall in Hall. specialize (Hall l Hl).
    unfold has_col in Hall. now apply bool_decide_eq_true in Hall.
  - intros k.
    rewrite (lookup_col_filter k (fun x => negb (list_contains x labels))).
    now destruct (list_contains k labels).
Qed.

Lemma lookup_col_applymap k f df :
  lookup_col k (data (df_applymap f df)) = map f <$> lookup_col k (data df).
Proof. apply lookup_col_map. Qed.

(** ** Labels and pruned headers *)

Lemma str_contains_app_r sub p : str_contains sub (p +:+ sub) = true.
Proof.
  induction p as [|c p IH]; simpl.
  - assert (Hp : String.prefix sub sub = true).
    { clear. induction sub as [|c s IH]; simpl; [reflexivity|].
      now destruct (ascii_dec c c). }
    destruct sub; simpl in *; [reflexivity | now rewrite Hp].
  - rewrite IH. apply orb_true_r.
Qed.

Lemma prune_spec h l : In h (prune l) <-> In h l /\ str_contains "Odds" h = false.
Proof.
  unfold prune. rewrite <- !list_elem_of_In, list_elem_of_filter.
  rewrite Is_true_true, negb_true_iff. tauto.
Qed.

Lemma sides_cases self :
  sides self = ["winning"; "losing"] \/ sides self = ["home"; "away"].
Proof. unfold sides. destruct (Options.win_loss _); auto. Qed.

Lemma odds_labels_shape self :
  exists a b, odds_labels self = [a +:+ "Odds"; b +:+ "Odds"].
Proof.
  unfold odds_labels. destruct (sides_cases self) as [-> | ->]; simpl; eauto.
Qed.

Lemma name_labels_shape self nls :
  name_labels self = Some nls -> exists a b, nls = [a; b].
Proof.
  unfold name_labels. destruct (sides_cases self) as [-> | ->];
    repeat (destruct (String.eqb _ _)); intros E; inversion E; simpl; eauto.
Qed.

Lemma df_col_raises_KeyError k df e : df_col k df = Raise e -> e = KeyError.
Proof. unfold df_col. destruct (lookup_col k (data df)); now intros [= <-]. Qed.

Lemma select_missing_KeyError ks df k :
  In k ks -> lookup_col k (data df) = None -> df_select ks df = Raise KeyError.
Proof.
  unfold df_select. intros Hin Hk.
  assert (E : mapR (fun k => c ← df_col k df; mret (k, c)) ks = Raise KeyError).
  { induction ks as [|k0 ks IH]; [destruct Hin|]. simpl.
    destruct (df_col k0 df) as [c0|e] eqn:E0; simpl.
    - destruct Hin as [->|Hin].
      + apply df_col_Ok in E0. congruence.
      + now rewrite IH.
    - now rewrite (df_col_raises_KeyError _ _ _ E0). }
  now rewrite E.
Qed.

Lemma annotate_missing_odds `{Externals} cut nl ol :
  lookup_col ol (data cut) = None -> annotate cut (nl, ol) = Raise (SystemExit 1).
Proof.
  intros Hol. unfold annotate.
  rewrite (select_missing_KeyError [nl; ol] cut ol); [reflexivity | | assumption].
  right. now left.
Qed.

Lemma pipeline_pruned_fails `{Externals} glyph self df reason :
  (forall h, In h (View.column_headers self) -> str_contains "Odds" h = false) ->
  is_Raise (pipeline glyph self df reason).
Proof.
  intros Hpruned. unfold pipeline.
  assert (Hnot : forall p, list_contains (p +:+ "Odds") (View.column_headers self) = false).
  { intros p. destruct (list_contains _ _) eqn:E; [|reflexivity].
    apply list_contains_spec, Hpruned in E. now rewrite str_contains_app_r in E. }
  apply is_Raise_bind. intros cut0 H0.
  assert (F0 : forall p, lookup_col (p +:+ "Odds") (data cut0) = None).
  { intros p. unfold stage_cut in H0. apply bind_Ok in H0 as (sel & Hsel & H0).
    inversion H0; subst. rewrite lookup_col_head.
    apply df_select_Ok in Hsel as (_ & _ & Hsel). now rewrite Hsel, Hnot. }
  apply is_Raise_bind. intros cut1 H1.
  assert (F1 : forall p, lookup_col (p +:+ "Odds") (data cut1) = None).
  { intros p. unfold stage_reindex in H1.
    apply bind_Ok in H1 as (c1 & _ & H1). apply bind_Ok in H1 as (c1' & _ & H1).
    apply bind_Ok in H1 as (c2 & _ & H1). apply bind_Ok in H1 as (c2' & _ & H1).
    inversion H1; subst. rewrite !lookup_col_assign.
    destruct (String.eqb_spec (p +:+ "Odds") "day") as [E|_].
    { pose proof (str_contains_app_r "Odds" p) as C. rewrite E in C. discriminate C. }
    destruct (String.eqb_spec (p +:+ "Odds") "season") as [E|_].
    { pose proof (str_contains_app_r "Odds" p) as C. rewrite E in C. discriminate C. }
    apply F0. }
  destruct (odds_labels_shape self) as (a & b & Hodds).
  apply is_Raise_bind. intros cut2 H2.
  unfold stage_odds in H2. destruct (String.eqb reason "underdog").
  - destruct (name_labels self) as [nls|] eqn:Hn; [|discriminate H2].
    destruct (name_labels_shape _ _ Hn) as (n1 & n2 & ->). rewrite Hodds in H2.
    cbn [zip_with foldR] in H2.
    rewrite annotate_missing_odds in H2 by apply F1. discriminate H2.
  - inversion H2; subst cut2. unfold df_drop. rewrite Hodds. simpl.
    unfold has_col at 1. rewrite F1. simpl. now exists KeyError.
Qed.

(** ** The fixed columns through the pipeline *)

Lemma except_KeyError_Ok {A} (m h : result A) a :
  (forall b, h <> Ok b) -> except_KeyError m h = Ok a -> m = Ok a.
Proof.
  intros Hh. destruct m as [x|e]; simpl; [tauto|].
  destruct e; try discriminate. intros E. now apply Hh in E.
Qed.

Lemma annotate_Ok `{Externals} cut nl ol cut' :
  annotate cut (nl, ol) = Ok cut' ->
  exists pair column,
    df_select [nl; ol] cut = Ok pair /\
    df_apply_rows (RichView.addodds nl ol) pair = Ok (AppliedSeries column) /\
    cut' = df_assign nl column cut.
Proof.
  unfold annotate. intros E. apply except_KeyError_Ok in E; [|discriminate].
  apply bind_Ok in E as (pair & Hp & E). apply bind_Ok in E as (value & Hc & E).
  destruct value as [column|d]; simpl in E.
  - inversion E; subst. eauto.
  - exfalso. unfold df_apply_rows in Hc.
    destruct (nrows pair); [|destruct (mapR _ _); discriminate Hc].
    inversion Hc; subst d. apply df_select_Ok in Hp as (_ & Hcols & _).
    unfold df_columns in Hcols.
    destruct (data pair) as [|[k1 c1] [|[k2 c2] [|kc cols]]]; simpl in *;
      discriminate.
Qed.

Lemma foldR_annotate_other `{Externals} ls cut cut' k :
  foldR annotate ls cut = Ok cut' ->
  (forall l, In l ls -> l.1 <> k) ->
  lookup_col k (data cut') = lookup_col k (data cut).
Proof.
  revert cut. induction ls as [|[nl ol] ls IH]; intros cut E Hk; simpl in E.
  - now inversion E.
  - apply bind_Ok in E as (cut1 & H1 & E).
    rewrite (IH cut1 E) by (intros l Hl; apply Hk; now right).
    apply annotate_Ok in H1 as (pair & col & _ & _ & ->).
    rewrite lookup_col_assign.
    destruct (String.eqb_spec k nl) as [->|_]; [|reflexivity].
    exfalso. now apply (Hk (nl, ol)); [left|].
Qed.

Lemma name_labels_Team self nls n :
  name_labels self = Some nls -> In n nls -> str_contains "Team" n = true.
Proof.
  unfold name_labels. destruct (sides_cases self) as [-> | ->];
    repeat (destruct (String.eqb _ _)); intros E; inversion E; subst; simpl;
    intros [<-|[<-|[]]]; reflexivity.
Qed.

Lemma stage_odds_other `{Externals} self reason cut cut' k :
  stage_odds self reason cut = Ok cut' ->
  str_contains "Team" k = false ->
  lookup_col k (data cut') = lookup_col k (data cut).
Proof.
  unfold stage_odds. intros E Hk. destruct (String.eqb reason "underdog").
  - destruct (name_labels self) as [nls|] eqn:Hn; [|discriminate].
    apply (foldR_annotate_other _ _ _ _ E).
    intros [nl ol] Hl <-. simpl in Hk.
    apply list_elem_of_In, elem_of_zip_l, list_elem_of_In in Hl.
    rewrite (name_labels_Team _ _ _ Hn Hl) in Hk. discriminate.
  - now inversion E.
Qed.

Lemma decode_other cut h cut' k :
  decode_column cut h = Ok cut' -> str_last 5 k <> "Emoji" ->
  lookup_col k (data cut') = lookup_col k (data cut).
Proof.
  unfold decode_column. intros E Hk. destruct (String.eqb_spec (str_last 5 h) "Emoji") as [Hh|_].
  - apply bind_Ok in E as (c & _ & E). apply bind_Ok in E as (c' & _ & E).
    inversion E; subst. rewrite lookup_col_assign.
    destruct (String.eqb_spec k h) as [->|_]; [contradiction | reflexivity].
  - now inversion E.
Qed.

Lemma foldR_decode_other hs cut cut' k :
  foldR decode_column hs cut = Ok cut' -> str_last 5 k <> "Emoji" ->
  lookup_col k (data cut') = lookup_col k (data cut).
Proof.
  revert cut. induction hs as [|h hs IH]; intros cut E Hk; simpl in E.
  - now inversion E.
  - apply bind_Ok in E as (cut1 & H1 & E).
    rewrite (IH cut1 E Hk). now apply decode_other with h.
Qed.

Lemma stage_cut_Ok self df cut :
  stage_cut self df = Ok cut ->
  nrows cut = kept self df /\
  forall k, lookup_col k (data cut)
            = if list_contains k (View.column_headers self)
              then take (kept self df) <$> lookup_col k (data df) else None.
Proof.
  unfold stage_cut. intros E. apply bind_Ok in E as (sel & Hsel & E).
  inversion E; subst. apply df_select_Ok in Hsel as (Hn & _ & Hsel).
  unfold kept. rewrite <- Hn. split; [reflexivity|].
  intros k. rewrite lookup_col_head, Hsel. now destruct (list_contains _ _).
Qed.

Lemma stage_reindex_Ok cut cut' :
  stage_reindex cut = Ok cut' ->
  exists s s' d d',
    lookup_col "season" (data cut) = Some s /\ mapR add_one s = Ok s' /\
    lookup_col "day" (data cut) = Some d /\ mapR add_one d = Ok d' /\
    cut' = df_assign "day" d' (df_assign "season" s' cut).
Proof.
  unfold stage_reindex, series_apply. intros E.
  apply bind_Ok in E as (s & Hs & E). apply bind_Ok in E as (s' & Hs' & E).
  apply bind_Ok in E as (d & Hd & E). apply bind_Ok in E as (d' & Hd' & E).
  inversion E; subst. apply df_col_Ok in Hs, Hd. eauto 10.
Qed.

Lemma pipeline_Ok `{Externals} glyph self df reason self' cut :
  pipeline glyph self df reason = Ok (self', cut) ->
  exists cut0 cut1 cut2 cut3 cut4 cut5,
    stage_cut self df = Ok cut0 /\
    stage_reindex cut0 = Ok cut1 /\
    stage_odds self reason cut1 = Ok cut2 /\
    df_drop (odds_labels self) cut2 = Ok cut3 /\
    stage_post glyph cut3 = Ok cut4 /\
    foldR decode_column (prune (View.column_headers self)) cut4 = Ok cut5 /\
    cut = stage_str cut5 /\
    self' = set_headers self (prune (View.column_headers self))
                        (prune (View.nice_column_headers self)).
Proof.
  unfold pipeline. intros E.
  apply bind_Ok in E as (cut0 & H0 & E). apply bind_Ok in E as (cut1 & H1 & E).
  apply bind_Ok in E as (cut2 & H2 & E). apply bind_Ok in E as (cut3 & H3 & E).
  apply bind_Ok in E as (cut4 & H4 & E). apply bind_Ok in E as (cut5 & H5 & E).
  inversion E; subst. exists cut0, cut1, cut2, cut3, cut4, cut5. auto 10.
Qed.

Lemma odds_label_contains self l :
  In l (odds_labels self) -> str_contains "Odds" l = true.
Proof.
  destruct (odds_labels_shape self) as (a & b & ->).
  intros [<-|[<-|[]]]; apply str_contains_app_r.
Qed.

Lemma not_odds_label self k :
  str_contains "Odds" k = false -> list_contains k (odds_labels self) = false.
Proof.
  intros Hk. destruct (list_contains _ _) eqn:E; [|reflexivity].
  apply list_contains_spec, odds_label_contains in E. congruence.
Qed.

(** A column that is neither a team name, nor an odds column, nor an emoji
    column is only cut and turned into strings, once steps 2 and 6 have
    had their turn. *)
Lemma pipeline_plain_columns `{Externals} glyph self df reason self' cut :
  pipeline glyph self df reason = Ok (self', cut) ->
  exists cut0 cut1 post,
    stage_cut self df = Ok cut0 /\ stage_reindex cut0 = Ok cut1 /\
    lookup_col "isPostseason" (data cut1) = Some post /\
    forall k,
      str_contains "Team" k = false -> str_contains "Odds" k = false ->
      str_last 5 k <> "Emoji" ->
      lookup_col k (data cut)
      = map (fun v => VStr (py_str v))
        <$> (if String.eqb k "isPostseason" then Some (map glyph post)
             else lookup_col k (data cut1)).
Proof.
  intros E.
  apply pipeline_Ok in E
    as (cut0 & cut1 & cut2 & cut3 & cut4 & cut5 & H0 & H1 & H2 & H3 & H4 & H5 & -> & _).
  apply df_drop_Ok in H3 as (_ & _ & H3).
  assert (E3 : forall k, str_contains "Team" k = false -> str_contains "Odds" k = false ->
                         lookup_col k (data cut3) = lookup_col k (data cut1)).
  { intros k HT HO. rewrite H3, not_odds_label by assumption.
    now apply stage_odds_other with self reason. }
  unfold stage_post in H4. apply bind_Ok in H4 as (post & Hp & H4).
  apply df_col_Ok in Hp. inversion H4; subst cut4. clear H4.
  exists cut0, cut1, post. split; [assumption|]. split; [assumption|].
  split; [now rewrite <- E3|].
  intros k HT HO HE. unfold stage_str. rewrite lookup_col_applymap. f_equal.
  rewrite (foldR_decode_other _ _ _ _ H5 HE), lookup_col_assign.
  destruct (String.eqb k "isPostseason"); [reflexivity | now apply E3].
Qed.

Lemma foldR_invariant {A B} (P : B -> Prop) (f : B -> A -> result B) l b b' :
  (forall x y z, P x -> f x y = Ok z -> P z) ->
  P b -> foldR f l b = Ok b' -> P b'.
Proof.
  intros Hf. revert b. induction l as [|x l IH]; intros b Hb E; simpl in E.
  - now inversion E; subst.
  - apply bind_Ok in E as (b1 & H1 & E). eauto.
Qed.

Lemma pipeline_nrows `{Externals} glyph self df reason self' cut :
  pipeline glyph self df reason = Ok (self', cut) -> nrows cut = kept self df.
Proof.
  intros E.
  apply pipeline_Ok in E
    as (cut0 & cut1 & cut2 & cut3 & cut4 & cut5 & H0 & H1 & H2 & H3 & H4 & H5 & -> & _).
  apply stage_cut_Ok in H0 as (<- & _).
  apply stage_reindex_Ok in H1 as (s & s' & d & d' & _ & _ & _ & _ & ->).
  assert (E2 : nrows cut2 = nrows cut0).
  { unfold stage_odds in H2. destruct (String.eqb reason "underdog").
    - destruct (name_labels self); [|discriminate].
      apply (foldR_invariant (fun c => nrows c = nrows cut0)) in H2; [assumption| |reflexivity].
      intros x [nl ol] z Hx Hz. apply annotate_Ok in Hz as (? & ? & _ & _ & ->). exact Hx.
    - now inversion H2. }
  apply df_drop_Ok in H3 as (E3 & _).
  unfold stage_post in H4. apply bind_Ok in H4 as (post & _ & H4). inversion H4; subst cut4.
  apply (foldR_invariant (fun c => nrows c = nrows cut0)) in H5.
  - exact H5.
  - intros x h z Hx Hz. unfold decode_column in Hz.
    destruct (String.eqb _ "Emoji").
    + apply bind_Ok in Hz as (? & _ & Hz). apply bind_Ok in Hz as (? & _ & Hz).
      now inversion Hz; subst.
    + now inversion Hz; subst.
  - simpl. congruence.
Qed.

Lemma row_get_df_row k df i c :
  lookup_col k (data df) = Some c ->
  row_get k (df_row df i) = Ok (default VNone (c !! i)).
Proof.
  unfold df_row. induction (data df) as [|[k0 c0] cols IH]; simpl; [discriminate|].
  destruct (String.eqb k k0); [now intros [= ->] | exact IH].
Qed.

Lemma row_get_cell k df i v :
  cell k i df = Some v -> row_get k (df_row df i) = Ok v.
Proof.
  unfold cell. destruct (lookup_col k (data df)) as [c|] eqn:E; simpl; [|discriminate].
  intros Hv. rewrite (row_get_df_row _ _ _ _ E), Hv. reflexivity.
Qed.

Lemma int_of_str_of_int z : int_of_str (str_of_int z) = Ok z.
Proof.
  unfold int_of_str, str_of_int. rewrite NilZero.isi.
  - now rewrite DecimalZ.of_to.
  - destruct z; simpl; try discriminate. intros [= E].
    now apply DecimalPos.Unsigned.to_uint_nonnil in E.
  - destruct z; simpl; try discriminate. intros [= E].
    now apply DecimalPos.Unsigned.to_uint_nonnil in E.
Qed.

(** The fixed columns of the transformed rows, cell by cell. *)
Lemma pipeline_fixed_cells `{Externals} glyph self df reason self' cut i :
  pipeline glyph self df reason = Ok (self', cut) -> (i < kept self df)%nat ->
  (forall k, k = "season" \/ k = "day" ->
     forall v, cell k i df = Some v ->
       exists v', add_one v = Ok v' /\ cell k i cut = Some (VStr (py_str v'))) /\
  (forall v, cell "isPostseason" i df = Some v ->
     cell "isPostseason" i cut = Some (VStr (py_str (glyph v)))).
Proof.
  intros E Hi.
  apply pipeline_plain_columns in E as (cut0 & cut1 & post & H0 & H1 & Hp & Hk).
  apply stage_cut_Ok in H0 as (_ & H0).
  apply stage_reindex_Ok in H1 as (s & s' & d & d' & Hs & Hs' & Hd & Hd' & ->).
  rewrite !lookup_col_assign in Hp. simpl in Hp.
  assert (Hcut0 : forall k c0 v, lookup_col k (data cut0) = Some c0 ->
                    cell k i df = Some v -> c0 !! i = Some v).
  { intros k c0 v Hc0 Hv. rewrite H0 in Hc0. unfold cell in Hv.
    destruct (list_contains _ _); [|discriminate].
    destruct (lookup_col k (data df)) as [c|]; simpl in *; [|discriminate].
    inversion Hc0; subst. now rewrite lookup_take_lt. }
  split.
  - intros k [-> | ->] v Hv.
    + pose proof (Hcut0 _ _ _ Hs Hv) as Hsv.
      destruct (mapR_Ok_lookup _ _ _ _ _ Hs' Hsv) as (v' & Hv' & Ha).
      exists v'. split; [assumption|]. unfold cell.
      rewrite Hk by (reflexivity || discriminate).
      rewrite !lookup_col_assign. simpl.
      now rewrite list_lookup_fmap, Hv'.
    + pose proof (Hcut0 _ _ _ Hd Hv) as Hdv.
      destruct (mapR_Ok_lookup _ _ _ _ _ Hd' Hdv) as (v' & Hv' & Ha).
      exists v'. split; [assumption|]. unfold cell.
      rewrite Hk by (reflexivity || discriminate).
      rewrite !lookup_col_assign. simpl.
      now rewrite list_lookup_fmap, Hv'.
  - intros v Hv. pose proof (Hcut0 _ _ _ Hp Hv) as Hpv.
    unfold cell. rewrite Hk by (reflexivity || discriminate). simpl.
    now rewrite !list_lookup_fmap, Hpv.
Qed.

(** ** Serialization *)

Lemma append_assoc (a b c : string) : (a +:+ b) +:+ c = a +:+ (b +:+ c).
Proof.
  induction a as [|x a IH]; [reflexivity|].
  change (String x ((a +:+ b) +:+ c) = String x (a +:+ (b +:+ c))).
  now rewrite IH.
Qed.

Lemma append_nil_r (a : string) : a +:+ "" = a.
Proof.
  induction a as [|x a IH]; [reflexivity|].
  change (String x (a +:+ "") = String x a). now rewrite IH.
Qed.

Lemma concat_all_cons x l : concat_all (x :: l) = x +:+ concat_all l.
Proof. reflexivity. Qed.

Lemma fold_left_append {A} (f : A -> string) l init :
  fold_left (fun acc x => acc +:+ f x) l init = init +:+ concat_all (map f l).
Proof.
  revert init. induction l as [|x l IH]; intros init; cbn [fold_left map].
  - apply eq_sym, append_nil_r.
  - now rewrite IH, concat_all_cons, append_assoc.
Qed.

Lemma fold_left_ext {A B} (f g : B -> A -> B) l b :
  (forall b x, f b x = g b x) -> fold_left f l b = fold_left g l b.
Proof.
  intros E. revert b. induction l as [|x l IH]; intros b; simpl; [reflexivity|].
  now rewrite E, IH.
Qed.

Lemma fold_left_add_column {A} (h : A -> string) (j : A -> justify) l t :
  fold_left (fun t x => add_column (h x) (j x) t) l t
  = {| table_columns := (table_columns t ++ map (fun x => (h x, j x)) l)%list;
       table_rows := table_rows t |}.
Proof.
  revert t. induction l as [|x l IH]; intros t; simpl.
  - rewrite app_nil_r. now destruct t.
  - rewrite IH. simpl. unfold py_append. now rewrite <- app_assoc.
Qed.

Lemma fold_left_add_row {A} (f : A -> list pyval) l t :
  fold_left (fun t x => add_row (f x) t) l t
  = {| table_columns := table_columns t;
       table_rows := (table_rows t ++ map f l)%list |}.
Proof.
  revert t. induction l as [|x l IH]; intros t; simpl.
  - rewrite app_nil_r. now destruct t.
  - rewrite IH. simpl. unfold py_append. now rewrite <- app_assoc.
Qed.

Lemma RichView_build_table self cut :
  RichView.build_table self cut
  = {| table_columns :=
         map (fun kn => (kn.2, column_justify (View.name_style self) kn.1))
             (zip (View.column_headers self) (View.nice_column_headers self));
       table_rows := map (map snd) (df_iterrows cut) |}.
Proof.
  unfold RichView.build_table.
  rewrite (fold_left_add_row (map snd)).
  rewrite (fold_left_ext _
             (fun t kn => add_column kn.2 (column_justify (View.name_style self) kn.1) t)).
  - now rewrite fold_left_add_column.
  - intros t [k n]. unfold column_justify. simpl. rewrite orb_false_r.
    destruct (String.eqb k "losingScore" || String.eqb k "awayScore"); [reflexivity|].
    now destruct (String.eqb (View.name_style self) "emoji"
                  && String.eqb (str_last 5 k) "Emoji").
Qed.

Lemma fold_left_pair {A} (f g : A -> string) l a b :
  fold_left (fun '(x, y) z => (x +:+ f z, y +:+ g z)) l (a, b)
  = (a +:+ concat_all (map f l), b +:+ concat_all (map g l)).
Proof.
  revert a b. induction l as [|x l IH]; intros a b; cbn [fold_left map].
  - change (concat_all []) with "". now rewrite !append_nil_r.
  - now rewrite IH, !concat_all_cons, !append_assoc.
Qed.

Lemma MarkdownView_header_lines self :
  MarkdownView.header_lines self
  = ("| " +:+ concat_all (map md_label
               (zip (View.column_headers self) (View.nice_column_headers self))),
     "| " +:+ concat_all (map (md_separator (View.name_style self))
               (zip (View.column_headers self) (View.nice_column_headers self)))).
Proof.
  unfold MarkdownView.header_lines.
  rewrite <- (fold_left_pair md_label (md_separator (View.name_style self))).
  apply fold_left_ext. intros [hd sp] [k n].
  unfold md_label, md_separator, column_justify. simpl. rewrite orb_false_r.
  destruct (String.eqb k "isPostseason"); [now rewrite !append_nil_r|].
  destruct (String.eqb k "losingScore" || String.eqb k "awayScore"); [reflexivity|].
  now destruct (String.eqb (View.name_style self) "emoji"
                && String.eqb (str_last 5 k) "Emoji").
Qed.

Lemma foldR_total {A B} (f : B -> A -> B) l b :
  foldR (fun b x => Ok (f b x)) l b = Ok (fold_left f l b).
Proof. revert b. induction l as [|x l IH]; intros b; simpl; [reflexivity | apply IH]. Qed.

Lemma foldR_ext {A B} (f g : B -> A -> result B) l b :
  (forall b x, f b x = g b x) -> foldR f l b = foldR g l b.
Proof.
  intros E. revert b. induction l as [|x l IH]; intros b; simpl; [reflexivity|].
  rewrite E. destruct (g b x); simpl; [apply IH | reflexivity].
Qed.

Lemma MarkdownView_row_line `{Externals} row post :
  row_get "isPostseason" row = Ok post ->
  MarkdownView.row_line row
  = Ok ("| " +:+ concat_all (map (md_cell (py_str post)) row)).
Proof.
  intros Hp. unfold MarkdownView.row_line.
  rewrite <- fold_left_append, <- foldR_total.
  apply foldR_ext. intros acc [k v]. unfold md_cell. simpl.
  destruct (String.eqb k "isPostseason"); [now rewrite append_nil_r|].
  destruct (String.eqb k "day"); [now rewrite Hp|reflexivity].
Qed.

Lemma foldR_Ok_map {A} (f : A -> result string) (g : A -> string) l init :
  (forall x, In x l -> f x = Ok (g x)) ->
  foldR (fun acc x => y ← f x; mret (acc +:+ y +:+ newline)) l init
  = Ok (init +:+ concat_all (map (fun x => g x +:+ newline) l)).
Proof.
  revert init. induction l as [|x l IH]; intros init Hf; cbn [foldR map].
  - change (concat_all []) with "". now rewrite append_nil_r.
  - rewrite (Hf x) by now left. rewrite bind_Ok_l.
    change (mret (init +:+ g x +:+ newline) ≫= ?k)
      with (k (init +:+ g x +:+ newline)).
    rewrite IH by (intros y Hy; apply Hf; now right).
    now rewrite concat_all_cons, !append_assoc.
Qed.

(** The Markdown text of rows that have a postseason column: the line of
    the labels, the line of the markers, then a line for each row, all of
    them ended by a newline. *)
Lemma MarkdownView_build_table `{Externals} self cut post :
  lookup_col "isPostseason" (data cut) = Some post ->
  MarkdownView.build_table self cut
  = Ok ((MarkdownView.header_lines self).1 +:+ newline
        +:+ (MarkdownView.header_lines self).2 +:+ newline
        +:+ concat_all (map (fun line => line +:+ newline)
                            (map (md_line cut post) (seq 0 (nrows cut))))).
Proof.
  intros Hp. unfold MarkdownView.build_table.
  destruct (MarkdownView.header_lines self) as [table_header table_sep].
  unfold df_iterrows. cbn [fst snd].
  rewrite (foldR_Ok_map MarkdownView.row_line
             (fun row => "| " +:+ concat_all
                           (map (md_cell (py_str (default VNone
                                   match row_get "isPostseason" row with
                                   | Ok v => Some v
                                   | Raise _ => None
                                   end))) row))).
  - rewrite !map_map.
    rewrite (map_ext _ (fun i => md_line cut post i +:+ newline)).
    + change ("" +:+ ?x) with x. now rewrite !append_assoc.
    + intros i. unfold md_line. now rewrite (row_get_df_row _ _ i _ Hp).
  - intros row Hrow. apply in_map_iff in Hrow as (i & <- & _).
    rewrite (row_get_df_row _ _ i _ Hp).
    now apply MarkdownView_row_line, row_get_df_row.
Qed.

Lemma RichView_render_table `{Externals} self description df reason self' cut :
  RichView.transform self df reason = Ok (self', cut) ->
  RichView._render_table self description df reason
  = Ok (self',
        [ConsolePrint (newline +:+ newline);
         ConsoleTable (RichView.build_table self' cut);
         ConsolePrint newline; Print description;
         ConsolePrint (newline +:+ newline)]).
Proof. unfold RichView._render_table. now intros ->. Qed.

Lemma MarkdownView_render_table `{Externals}
  self description df reason self' cut table :
  MarkdownView.transform self df reason = Ok (self', cut) ->
  MarkdownView.build_table self' cut = Ok table ->
  MarkdownView._render_table self description df reason
  = Ok (self',
        match View.output_file self' with
        | None => [Print (newline +:+ newline); Print description;
                   Print newline; Print table]
        | Some f => [FileAppend f (newline +:+ newline); FileAppend f description;
                     FileAppend f newline; FileAppend f table]
        end).
Proof.
  unfold MarkdownView._render_table. intros -> Hb. rewrite bind_Ok_l, Hb, bind_Ok_l.
  now destruct (View.output_file self').
Qed.

(** ** Season and day numbers (claim C6) *)

(** C6.  In both renderers, a season or a day that the frame stores as the
    0-based integer [v] in a row that is kept shows as the decimal string of
    [v + 1] in the transformed rows, and reading that string back as an
    integer and subtracting 1 gives [v] again. *)
Theorem season_day_round_trip `{Externals} self df reason self' cut k i v :
  RichView.transform self df reason = Ok (self', cut)
  \/ MarkdownView.transform self df reason = Ok (self', cut) ->
  k = "season" \/ k = "day" ->
  cell k i df = Some (VInt v) -> (i < kept self df)%nat ->
  exists shown,
    cell k i cut = Some (VStr shown) /\
    shown = str_of_int (v + 1) /\
    (n ← int_of_str shown; mret (n - 1)) = Ok v.
Proof.
  intros E Hk Hv Hi.
  assert (Ep : exists glyph, pipeline glyph self df reason = Ok (self', cut)).
  { destruct E as [E|E].
    - rewrite RichView_transform_pipeline in E. eauto.
    - rewrite MarkdownView_transform_pipeline in E. eauto. }
  destruct Ep as (glyph & Ep).
  destruct (pipeline_fixed_cells _ _ _ _ _ _ _ Ep Hi) as (Hfix & _).
  destruct (Hfix k Hk _ Hv) as (v' & Hv' & Hcell).
  simpl in Hv'. inversion Hv'; subst v'. simpl in Hcell.
  exists (str_of_int (v + 1)). split; [assumption|]. split; [reflexivity|].
  rewrite int_of_str_of_int. simpl. f_equal. lia.
Qed.

(** ** The postseason test (claim C10) *)

(** C10.  The postseason lambdas test identity with [False]: a kept row
    whose [isPostseason] cell is anything but the boolean [False] (so also
    [None], [0] or a string) gets the glyph for true, ["Y"] in the rows of
    the interactive renderer and ["*"] in those of the Markdown renderer,
    and only [False] itself gets the blank, [" "] or [""]. *)
Theorem postseason_identity_test `{Externals}
  self df reason self' cut_rich cut_markdown i v :
  RichView.transform self df reason = Ok (self', cut_rich) ->
  MarkdownView.transform self df reason = Ok (self', cut_markdown) ->
  cell "isPostseason" i df = Some v -> (i < kept self df)%nat ->
  (v <> VBool false ->
     cell "isPostseason" i cut_rich = Some (VStr "Y") /\
     cell "isPostseason" i cut_markdown = Some (VStr "*")) /\
  (v = VBool false ->
     cell "isPostseason" i cut_rich = Some (VStr " ") /\
     cell "isPostseason" i cut_markdown = Some (VStr "")).
Proof.
  intros Er Em Hv Hi.
  rewrite RichView_transform_pipeline in Er.
  rewrite MarkdownView_transform_pipeline in Em.
  destruct (pipeline_fixed_cells _ _ _ _ _ _ _ Er Hi) as (_ & Hr).
  destruct (pipeline_fixed_cells _ _ _ _ _ _ _ Em Hi) as (_ & Hm).
  rewrite (Hr _ Hv), (Hm _ Hv). split.
  - intros Hne. destruct v as [| [|] | | |]; try (split; reflexivity). congruence.
  - intros ->. split; reflexivity.
Qed.

(** ** The postseason flag (claim C7) *)

(** C7.  For a kept row whose postseason flag is the boolean [b]: the
    interactive renderer puts [" "] for false and ["Y"] for true in the
    postseason cell of the row it adds to the table that it prints; the
    Markdown renderer has [""] for false and ["*"] for true, and the text
    that it prints or appends to the output file is the line of the labels,
    the line of the markers and one line for each kept row, where the line
    of this row has that glyph right after the day in the day cell and
    neither it nor the line of the labels has anything for the postseason
    column itself. *)
Theorem postseason_rendering `{Externals}
  self df reason self' cut_rich cut_markdown i (b : bool) :
  RichView.transform self df reason = Ok (self', cut_rich) ->
  MarkdownView.transform self df reason = Ok (self', cut_markdown) ->
  cell "isPostseason" i df = Some (VBool b) -> (i < kept self df)%nat ->
  (row_get "isPostseason" (df_row cut_rich i) = Ok (VStr (if b then "Y" else " ")) /\
   table_rows (RichView.build_table self' cut_rich) !! i
   = Some (map snd (df_row cut_rich i)) /\
   forall description,
     RichView._render_table self description df reason
     = Ok (self',
           [ConsolePrint (newline +:+ newline);
            ConsoleTable (RichView.build_table self' cut_rich);
            ConsolePrint newline; Print description;
            ConsolePrint (newline +:+ newline)])) /\
  (row_get "isPostseason" (df_row cut_markdown i)
   = Ok (VStr (if b then "*" else "")) /\
   MarkdownView.row_line (df_row cut_markdown i)
   = Ok ("| " +:+ concat_all (map (md_cell (if b then "*" else ""))
                                  (df_row cut_markdown i))) /\
   (MarkdownView.header_lines self').1
   = "| " +:+ concat_all (map md_label
               (zip (View.column_headers self') (View.nice_column_headers self'))) /\
   exists lines table,
     MarkdownView.build_table self' cut_markdown = Ok table /\
     table = (MarkdownView.header_lines self').1 +:+ newline
             +:+ (MarkdownView.header_lines self').2 +:+ newline
             +:+ concat_all (map (fun line => line +:+ newline) lines) /\
     length lines = kept self df /\
     lines !! i
     = Some ("| " +:+ concat_all (map (md_cell (if b then "*" else ""))
                                      (df_row cut_markdown i))) /\
     forall description,
       MarkdownView._render_table self description df reason
       = Ok (self',
             match View.output_file self with
             | None => [Print (newline +:+ newline); Print description;
                        Print newline; Print table]
             | Some f => [FileAppend f (newline +:+ newline);
                          FileAppend f description;
                          FileAppend f newline; FileAppend f table]
             end)).
Proof.
  intros Er Em Hv Hi. pose proof Er as Er'. pose proof Em as Em'.
  rewrite RichView_transform_pipeline in Er.
  rewrite MarkdownView_transform_pipeline in Em.
  destruct (pipeline_fixed_cells _ _ _ _ _ _ _ Er Hi) as (_ & Hr).
  destruct (pipeline_fixed_cells _ _ _ _ _ _ _ Em Hi) as (_ & Hm).
  apply Hr in Hv as Hvr. apply Hm in Hv as Hvm. split.
  - split; [|split].
    + apply row_get_cell. rewrite Hvr. now destruct b.
    + rewrite RichView_build_table. simpl. unfold df_iterrows.
      rewrite !list_lookup_fmap, lookup_seq_lt; [reflexivity|].
      now rewrite (pipeline_nrows _ _ _ _ _ _ Er).
    + intros description. now apply RichView_render_table.
  - assert (Hrow : row_get "isPostseason" (df_row cut_markdown i)
                   = Ok (VStr (if b then "*" else ""))).
    { apply row_get_cell. rewrite Hvm. now destruct b. }
    split; [assumption|]. split; [|split].
    + now rewrite (MarkdownView_row_line _ _ Hrow).
    + now rewrite MarkdownView_header_lines.
    + unfold cell in Hvm.
      destruct (lookup_col "isPostseason" (data cut_markdown)) as [post|] eqn:Hp;
        [|discriminate Hvm].
      simpl in Hvm.
      pose proof (MarkdownView_build_table self' cut_markdown post Hp) as Hb.
      pose proof (pipeline_nrows _ _ _ _ _ _ Em) as Hn.
      eexists _, _. split; [exact Hb|]. split; [reflexivity|].
      split; [now rewrite length_map, length_seq|]. split.
      * rewrite list_lookup_fmap, lookup_seq_lt by now rewrite Hn.
        unfold md_line. simpl. rewrite Hvm. now destruct b.
      * intros description.
        rewrite (MarkdownView_render_table _ description _ _ _ _ _ Em' Hb).
        apply pipeline_Ok in Em as (? & ? & ? & ? & ? & ? & Em).
        now destruct Em as (_ & _ & _ & _ & _ & _ & _ & ->).
Qed.

(** ** Alignment (claim C3) *)

Lemma init_Ok `{Externals} options self effects :
  View.init options = Ok (self, effects) ->
  exists column_names nice_column_names,
    View.assemble_column_headers options = Ok (column_names, nice_column_names) /\
    View.column_headers self = column_names /\
    View.nice_column_headers self = nice_column_names /\
    View.options self = options /\
    View.nresults self = Options.n_results options /\
    View.name_style self = Options.name_style options.
Proof.
  unfold View.init. intros E. apply bind_Ok in E as ([ks ls] & Hp & E).
  exists ks, ls. split; [assumption|].
  destruct (String.eqb (Options.output options) "");
    [|destruct (path_exists (Options.output options));
      [|destruct (negb (path_exists _)); [discriminate E|]]];
    inversion E; subst; simpl; auto.
Qed.

(** The three tests on the name style, decided. *)
Ltac case_style o :=
  destruct (String.eqb_spec (Options.name_style o) "long");
  destruct (String.eqb_spec (Options.name_style o) "short");
  destruct (String.eqb_spec (Options.name_style o) "emoji");
  try congruence.

Ltac case_flags o :=
  destruct (Options.win_loss o), (Options.home_away o),
    (Options.winning_pitcher o), (Options.losing_pitcher o),
    (Options.home_pitcher o), (Options.away_pitcher o).

(** No column name of a plan is one of the two that the renderers justify
    to the right. *)
Lemma planned_not_right options column_names nice_column_names k :
  View.assemble_column_headers options = Ok (column_names, nice_column_names) ->
  In k column_names -> list_contains k ["losingScore"; "awayScore"] = false.
Proof.
  unfold View.assemble_column_headers. cbv zeta.
  case_style options; case_flags options; intros [= <- <-]; simpl;
    intros Hin;
    repeat (destruct Hin as [<-|Hin]; [reflexivity|]); destruct Hin.
Qed.

(** A plan with an orientation has the score column, also once pruned. *)
Lemma planned_score_key options column_names nice_column_names :
  View.assemble_column_headers options = Ok (column_names, nice_column_names) ->
  Options.win_loss options || Options.home_away options = true ->
  exists label,
    In (score_key options, label) (zip (prune column_names) (prune nice_column_names)).
Proof.
  unfold View.assemble_column_headers, score_key. cbv zeta.
  case_style options; case_flags options; intros [= <- <-] Hor;
    try discriminate Hor; eexists; vm_compute; tauto.
Qed.

(** A view that has shown a table has an orientation. *)
Lemma pipeline_orientation `{Externals} glyph options self effects df reason r :
  View.init options = Ok (self, effects) ->
  pipeline glyph self df reason = Ok r ->
  Options.win_loss options || Options.home_away options = true.
Proof.
  intros Hinit E. destruct (init_Ok _ _ _ Hinit) as (ks & ls & Hplan & Hks & _).
  destruct (Options.win_loss options) eqn:Hw; [reflexivity|].
  destruct (Options.home_away options) eqn:Hh; [reflexivity|]. exfalso.
  assert (Hbase : View.column_headers self = ["season"; "day"; "isPostseason"]).
  { rewrite Hks. revert Hplan. unfold View.assemble_column_headers.
    rewrite Hw, Hh. now intros [= <- <-]. }
  destruct (pipeline_pruned_fails glyph self df reason) as (e & He).
  - rewrite Hbase. intros h [<-|[<-|[<-|[]]]]; reflexivity.
  - rewrite He in E. discriminate E.
Qed.

(** C3, as the code has it.  In the tables of a view as [View.__init__]
    sets it up, no column is justified to the right: the renderers keep
    that for columns named [losingScore] or [awayScore], which no plan has.
    The score column, which holds the losing or away score and for which
    the specification asks the right, has the default justification in the
    interactive table and the marker [------ |] in the separator line of
    the Markdown text, like every column but the emoji name columns under
    the emoji name style, which are centred ([:------: | ]). *)
Theorem column_alignment `{Externals}
  options self effects df reason self' cut_rich cut_markdown :
  View.init options = Ok (self, effects) ->
  RichView.transform self df reason = Ok (self', cut_rich) ->
  MarkdownView.transform self df reason = Ok (self', cut_markdown) ->
  table_columns (RichView.build_table self' cut_rich)
  = map (fun kn => (kn.2, planned_justify (Options.name_style options) kn.1))
        (zip (View.column_headers self') (View.nice_column_headers self')) /\
  Forall (fun column => column.2 <> JustifyRight)
         (table_columns (RichView.build_table self' cut_rich)) /\
  (exists label,
     In (score_key options, label)
        (zip (View.column_headers self') (View.nice_column_headers self')) /\
     In (label, JustifyDefault) (table_columns (RichView.build_table self' cut_rich)) /\
     spec_justify (Options.name_style options) (score_key options) = JustifyRight) /\
  (exists rows,
     MarkdownView.build_table self' cut_markdown
     = Ok (("| " +:+ concat_all
                       (map md_label
                            (zip (View.column_headers self')
                                 (View.nice_column_headers self'))))
           +:+ newline
           +:+ ("| " +:+ concat_all
                           (map (fun kn =>
                                   if String.eqb kn.1 "isPostseason" then ""
                                   else md_marker
                                          (planned_justify
                                             (Options.name_style options) kn.1))
                                (zip (View.column_headers self')
                                     (View.nice_column_headers self'))))
           +:+ newline +:+ rows)) /\
  md_marker JustifyRight = "------: | " /\ md_marker JustifyCenter = ":------: | " /\
  md_marker JustifyDefault = "------ |".
Proof.
  intros Hinit Er Em.
  rewrite RichView_transform_pipeline in Er.
  rewrite MarkdownView_transform_pipeline in Em.
  destruct (init_Ok _ _ _ Hinit) as (ks & ls & Hplan & Hks & Hls & Ho & _ & Hstyle).
  pose proof (pipeline_orientation _ _ _ _ _ _ _ Hinit Er) as Hor.
  pose proof Em as Em'.
  apply pipeline_Ok in Em'
    as (cut0 & cut1 & cut2 & cut3 & cut4 & cut5 & _ & _ & _ & _ & H4 & H5 & Hcut & Hself).
  assert (Hstyle' : View.name_style self' = Options.name_style options).
  { now rewrite Hself. }
  assert (Hkeys : forall k label,
            In (k, label) (zip (View.column_headers self') (View.nice_column_headers self')) ->
            column_justify (Options.name_style options) k
            = planned_justify (Options.name_style options) k).
  { intros k label Hin. unfold column_justify, planned_justify.
    rewrite (planned_not_right options ks ls k Hplan); [reflexivity|].
    apply list_elem_of_In, elem_of_zip_l, list_elem_of_In in Hin.
    rewrite Hself in Hin. simpl in Hin. apply prune_spec in Hin as (Hin & _).
    now rewrite <- Hks. }
  assert (Hcolumns : table_columns (RichView.build_table self' cut_rich)
            = map (fun kn => (kn.2, planned_justify (Options.name_style options) kn.1))
                  (zip (View.column_headers self') (View.nice_column_headers self'))).
  { rewrite RichView_build_table. simpl. rewrite Hstyle'.
    apply map_ext_in. intros [k label] Hin. simpl. f_equal. now apply Hkeys with label. }
  split; [exact Hcolumns|]. split; [|split; [|split]].
  - rewrite Hcolumns. apply List.Forall_forall. intros column Hc.
    apply in_map_iff in Hc as ([k label] & <- & _). simpl.
    unfold planned_justify. now destruct (_ && _).
  - destruct (planned_score_key _ _ _ Hplan Hor) as (label & Hin).
    exists label.
    assert (Hin' : In (score_key options, label)
                      (zip (View.column_headers self') (View.nice_column_headers self'))).
    { rewrite Hself. simpl. now rewrite Hks, Hls. }
    split; [exact Hin'|]. split.
    + rewrite Hcolumns.
      apply in_map_iff. exists (score_key options, label). split; [|exact Hin'].
      simpl. f_equal. unfold planned_justify, score_key.
      destruct (Options.win_loss options); simpl; now rewrite andb_false_r.
    + unfold score_key. now destruct (Options.win_loss options).
  - assert (Hp : exists post, lookup_col "isPostseason" (data cut_markdown) = Some post).
    { apply pipeline_plain_columns in Em as (c0 & c1 & post & _ & _ & _ & Hk).
      rewrite Hk by (reflexivity || discriminate). simpl. eauto. }
    destruct Hp as (post & Hp).
    rewrite (MarkdownView_build_table self' cut_markdown post Hp).
    rewrite MarkdownView_header_lines. simpl. rewrite Hstyle'.
    rewrite (map_ext_in (md_separator (Options.name_style options))
               (fun kn => if String.eqb kn.1 "isPostseason" then ""
                          else md_marker
                                 (planned_justify (Options.name_style options) kn.1))).
    + eexists. rewrite !append_assoc. reflexivity.
    + intros [k label] Hin. unfold md_separator. simpl.
      now rewrite (Hkeys k label Hin).
  - auto.
Qed.

(** The column planner has one score column per table, [winningLosingScore]
    or [homeAwayScore]: no column of its plans is right-justified. *)
Remark planned_columns_not_right options plan k :
  View.assemble_column_headers options = Ok plan -> In k plan.1 ->
  column_justify (Options.name_style options) k <> JustifyRight.
Proof.
  unfold View.assemble_column_headers, py_append.
  destruct (Options.win_loss options), (Options.home_away options),
    (Options.winning_pitcher options), (Options.losing_pitcher options),
    (Options.home_pitcher options), (Options.away_pitcher options),
    (String.eqb (Options.name_style options) "long"),
    (String.eqb (Options.name_style options) "short"),
    (String.eqb (Options.name_style options) "emoji");
    intros [= <-]; simpl; intros Hk;
    repeat (destruct Hk as [<- | Hk]; [unfold column_justify; simpl;
      now destruct (String.eqb _ _ && _) |]); destruct Hk.
Qed.

(** ** The two renderers side by side (claim C8) *)

Lemma set_col_comm k k' c c' cols :
  k <> k' -> is_Some (lookup_col k cols) ->
  set_col k' c' (set_col k c cols) = set_col k c (set_col k' c' cols).
Proof.
  intros Hne. induction cols as [|[k0 c0] cols IH]; simpl; intros Hk.
  - now destruct Hk.
  - destruct (String.eqb_spec k k0) as [->|Hk0]; simpl.
    + destruct (String.eqb_spec k' k0) as [->|Hk0']; [congruence|]. simpl.
      now rewrite String.eqb_refl.
    + destruct (String.eqb_spec k' k0) as [->|Hk0']; simpl.
      * destruct (String.eqb_spec k k0); [congruence | reflexivity].
      * destruct (String.eqb_spec k k0); [congruence|]. now rewrite IH.
Qed.

Lemma set_col_idem k c c' cols : set_col k c (set_col k c' cols) = set_col k c cols.
Proof.
  induction cols as [|[k0 c0] cols IH]; simpl.
  - now rewrite String.eqb_refl.
  - destruct (String.eqb_spec k k0) as [->|Hk0]; simpl.
    + now rewrite String.eqb_refl.
    + destruct (String.eqb_spec k k0); [congruence|]. now rewrite IH.
Qed.

Lemma set_col_map k c (f : list pyval -> list pyval) cols :
  map (fun kc => (kc.1, f kc.2)) (set_col k c cols)
  = set_col k (f c) (map (fun kc => (kc.1, f kc.2)) cols).
Proof.
  induction cols as [|[k0 c0] cols IH]; simpl; [reflexivity|].
  destruct (String.eqb k k0); simpl; [reflexivity | now rewrite IH].
Qed.

Lemma stage_str_assign `{Externals} k c cut :
  stage_str (df_assign k c cut)
  = df_assign k (map (fun v => VStr (py_str v)) c) (stage_str cut).
Proof.
  unfold stage_str, df_applymap, df_assign. simpl. f_equal.
  apply (set_col_map k c (map (fun v => VStr (py_str v)))).
Qed.

Lemma decode_column_assign k c cut h :
  str_last 5 k <> "Emoji" -> is_Some (lookup_col k (data cut)) ->
  decode_column (df_assign k c cut) h = df_assign k c <$> decode_column cut h.
Proof.
  intros Hk Hsome. unfold decode_column.
  destruct (String.eqb_spec (str_last 5 h) "Emoji") as [Hh|_]; [|reflexivity].
  assert (Hne : h <> k) by congruence.
  unfold df_col. rewrite lookup_col_assign.
  destruct (String.eqb_spec h k); [congruence|].
  destruct (lookup_col h (data cut)) as [col|]; simpl; [|reflexivity].
  destruct (series_apply RichView.emoji_lambda col) as [col'|]; simpl; [|reflexivity].
  unfold df_assign. simpl. do 2 f_equal. now apply set_col_comm.
Qed.

Lemma decode_column_keeps k cut h cut' :
  decode_column cut h = Ok cut' -> is_Some (lookup_col k (data cut)) ->
  is_Some (lookup_col k (data cut')).
Proof.
  unfold decode_column. destruct (String.eqb (str_last 5 h) "Emoji").
  - intros E. apply bind_Ok in E as (col & _ & E). apply bind_Ok in E as (col' & _ & E).
    inversion E; subst. rewrite lookup_col_assign. now destruct (String.eqb k h).
  - now intros [= ->].
Qed.

Lemma foldR_decode_assign k c hs cut :
  str_last 5 k <> "Emoji" -> is_Some (lookup_col k (data cut)) ->
  foldR decode_column hs (df_assign k c cut)
  = df_assign k c <$> foldR decode_column hs cut.
Proof.
  intros Hk. revert cut. induction hs as [|h hs IH]; intros cut Hsome; simpl.
  - reflexivity.
  - rewrite decode_column_assign by assumption.
    destruct (decode_column cut h) as [cut1|] eqn:E1; simpl; [|reflexivity].
    apply IH. now apply decode_column_keeps with cut h.
Qed.

Lemma markdown_glyph_postseason `{Externals} v :
  markdown_glyph (VStr (py_str (RichView.postseason_lambda v)))
  = VStr (py_str (MarkdownView.postseason_lambda v)).
Proof. now destruct v as [| [|] | | |]. Qed.

Lemma pipeline_reglyph `{Externals} self df reason :
  pipeline MarkdownView.postseason_lambda self df reason
  = (fun sc => (sc.1, reglyph sc.2))
    <$> pipeline RichView.postseason_lambda self df reason.
Proof.
  unfold pipeline.
  destruct (stage_cut self df) as [cut0|]; [|reflexivity].
  rewrite !bind_Ok_l.
  destruct (stage_reindex cut0) as [cut1|]; [|reflexivity].
  rewrite !bind_Ok_l.
  destruct (stage_odds self reason cut1) as [cut2|]; [|reflexivity].
  rewrite !bind_Ok_l.
  destruct (df_drop (odds_labels self) cut2) as [cut3|]; [|reflexivity].
  rewrite !bind_Ok_l. unfold stage_post, df_col.
  destruct (lookup_col "isPostseason" (data cut3)) as [post|] eqn:Hpost; [|reflexivity].
  rewrite !bind_Ok_l. simpl View.column_headers.
  rewrite !foldR_decode_assign by (rewrite ?Hpost; eauto; discriminate).
  destruct (foldR decode_column _ cut3) as [cut5|]; [|reflexivity].
  simpl. do 2 f_equal. rewrite !stage_str_assign. unfold reglyph.
  rewrite lookup_col_assign. simpl. unfold df_assign. simpl. f_equal.
  rewrite set_col_idem. f_equal.
  rewrite !map_map. apply map_ext. intros v. symmetry.
  apply markdown_glyph_postseason.
Qed.

(** C8.  On every view, frame and category the Markdown renderer's
    transformation is that of the interactive renderer: they succeed
    together with the same pruned column plan and the same rows, but for
    the postseason column where the one has [""] and ["*"] for the other's
    [" "] and ["Y"], or they fail together with the same exception. *)
Theorem renderers_transform_alike `{Externals} self df reason :
  MarkdownView.transform self df reason
  = (fun sc => (sc.1, reglyph sc.2)) <$> RichView.transform self df reason.
Proof.
  rewrite MarkdownView_transform_pipeline, RichView_transform_pipeline.
  apply pipeline_reglyph.
Qed.

(** ** Captions (claims C5 and C9) *)

(** [", ".join(l)] joins by commas. *)
Lemma str_join_comma (l : list string) : str_join ", " l = comma_joined l.
Proof.
  unfold comma_joined. induction l as [|x [|y l] IH]; [reflexivity | reflexivity |].
  change (x +:+ ", " +:+ str_join ", " (y :: l)
          = x +:+ ", " +:+ String.concat ", " (y :: l)).
  now rewrite IH.
Qed.

(** The caption of a recognized category, with the team part as the code
    decides it. *)
Lemma table_description_Ok `{Externals} self c :
  View.table_description self (category_name c)
  = Ok (category_phrase c
        +:+ scope_phrase (Options.season (View.options self))
        +:+ postseason_phrase (Options.postseason (View.options self))
        +:+ (if bool_decide (length (Options.team (View.options self)) = 1%nat)
             then "for team " +:+ str_join "" (Options.team (View.options self))
             else if bool_decide
                       (size (list_to_set ALLTEAMS
                              ∖ list_to_set (Options.team (View.options self))
                              : gset string) = 0%nat)
             then "for all teams"
             else "for teams " +:+ comma_joined (Options.team (View.options self)))
        +:+ footer).
Proof.
  unfold View.table_description.
  match goal with
  | |- ?m ≫= ?k = _ =>
      assert (Hm : m = Ok (category_phrase c)) by (destruct c; reflexivity);
      rewrite Hm, bind_Ok_l
  end.
  clear Hm. generalize (category_phrase c) as phrase. intros phrase.
  unfold scope_phrase, postseason_phrase, footer, mret, result_ret.
  rewrite !str_join_comma.
  set (season := Options.season (View.options self)).
  assert (Hs : (if bool_decide (length season = 1%nat)
                then phrase +:+ "for season " +:+ str_join "" season +:+ " "
                else phrase +:+ "for seasons " +:+ comma_joined season +:+ " ")
               = phrase +:+ match season with
                            | [x] => "for season " +:+ x +:+ " "
                            | _ => "for seasons " +:+ comma_joined season +:+ " "
                            end).
  { destruct season as [|x [|y l]]; reflexivity. }
  cbv zeta. rewrite Hs. f_equal.
  repeat match goal with
         | |- context [if ?b then _ else _] => destruct b
         end;
    rewrite ?append_assoc, ?append_nil_r; reflexivity.
Qed.

Lemma roster_subset `{Externals} (team : list string) :
  size (list_to_set ALLTEAMS ∖ list_to_set team : gset string) = 0%nat
  <-> forall t, In t ALLTEAMS -> In t team.
Proof.
  rewrite size_empty_iff. split.
  - intros Hempty t Ht. apply list_elem_of_In.
    destruct (decide (t ∈ team)) as [|Hn]; [assumption|].
    exfalso. apply (not_elem_of_empty (C := gset string) t). rewrite <- Hempty.
    apply elem_of_difference. rewrite !elem_of_list_to_set.
    split; [now apply list_elem_of_In | assumption].
  - intros Hsub. apply elem_of_equiv_empty. intros t.
    rewrite elem_of_difference, !elem_of_list_to_set.
    intros (Ht & Hn). apply Hn.
    now apply list_elem_of_In, Hsub, list_elem_of_In.
Qed.

Lemma roster_selected `{Externals} (team : list string) :
  forallb (fun t => list_contains t team) ALLTEAMS = true
  <-> forall t, In t ALLTEAMS -> In t team.
Proof.
  rewrite forallb_forall. split; intros Hsub t Ht.
  - now apply list_contains_spec, Hsub.
  - now apply list_contains_spec, Hsub.
Qed.

Lemma roster_covered `{Externals} (team : list string) :
  Forall (fun t => In t ALLTEAMS) team ->
  (forall t, In t ALLTEAMS -> In t team)
  <-> list_to_set team =@{gset string} list_to_set ALLTEAMS.
Proof.
  intros Hteam. split.
  - intros Hsub. apply set_eq. intros t. rewrite !elem_of_list_to_set.
    rewrite !list_elem_of_In. split; [|apply Hsub].
    apply (proj1 (List.Forall_forall _ _) Hteam).
  - intros E t Ht. apply list_elem_of_In.
    apply (elem_of_list_to_set (C := gset string)). rewrite E.
    now apply elem_of_list_to_set, list_elem_of_In.
Qed.

(** The test of the code on the roster, [set(ALLTEAMS) - set(team)] being
    empty, holds when every team of the roster is selected. *)
Lemma roster_test `{Externals} (team : list string) :
  bool_decide (size (list_to_set ALLTEAMS ∖ list_to_set team : gset string) = 0%nat)
  = forallb (fun t => list_contains t team) ALLTEAMS.
Proof.
  destruct (forallb _ ALLTEAMS) eqn:Hf.
  - now apply bool_decide_eq_true, roster_subset, roster_selected.
  - apply bool_decide_eq_false. rewrite roster_subset, <- roster_selected. congruence.
Qed.

Lemma roster_equal `{Externals} (team : list string) :
  Forall (fun t => In t ALLTEAMS) team ->
  bool_decide (list_to_set team =@{gset string} list_to_set ALLTEAMS)
  = forallb (fun t => list_contains t team) ALLTEAMS.
Proof.
  intros Hteam. destruct (forallb _ ALLTEAMS) eqn:Hf.
  - now apply bool_decide_eq_true, roster_covered, roster_selected.
  - apply bool_decide_eq_false.
    rewrite <- (roster_covered _ Hteam), <- roster_selected. congruence.
Qed.

(** C5, as the code has it.  For each of the six categories and every
    season selector, postseason flag and team selector, the caption is the
    category phrase, then the scope (all time, one season, or the seasons
    joined by commas), then the postseason mark exactly when the flag is
    set, then the teams, then the footer on 1-indexing.  The teams are the
    one team of a selection of one; otherwise all teams whenever every team
    of the roster is selected, in any order and whatever else is selected
    with them, and else the selection joined by commas.  For a selection
    of roster teams, "every team of the roster is selected" says that the
    selected set equals the roster. *)
Theorem caption_wording `{Externals} self c :
  View.table_description self (category_name c)
  = Ok (category_phrase c
        +:+ scope_phrase (Options.season (View.options self))
        +:+ postseason_phrase (Options.postseason (View.options self))
        +:+ team_phrase_amended (Options.team (View.options self))
        +:+ footer) /\
  (Forall (fun t => In t ALLTEAMS) (Options.team (View.options self)) ->
   team_phrase_amended (Options.team (View.options self))
   = team_phrase (Options.team (View.options self))).
Proof.
  split.
  - rewrite table_description_Ok. do 4 f_equal. unfold team_phrase_amended.
    rewrite roster_test.
    destruct (Options.team (View.options self)) as [|x [|y l]];
      try reflexivity;
      now destruct (forallb _ ALLTEAMS).
  - intros Hteam. unfold team_phrase_amended, team_phrase.
    rewrite (roster_equal _ Hteam).
    destruct (Options.team (View.options self)) as [|x [|y l]];
      try reflexivity;
      now destruct (forallb _ ALLTEAMS).
Qed.

(** C9.  A season selector that has the token [all] anywhere gives the
    scope "for all time": for each category the caption is the one of the
    selector [all] alone, whatever the other labels are. *)
Theorem all_token_membership `{Externals} self c :
  In "all" (Options.season (View.options self)) ->
  (exists rest,
     View.table_description self (category_name c)
     = Ok (category_phrase c +:+ "for all time " +:+ rest)) /\
  View.table_description self (category_name c)
  = View.table_description (set_season self ["all"]) (category_name c).
Proof.
  intros Hall. apply list_contains_spec in Hall.
  rewrite !table_description_Ok. unfold scope_phrase. rewrite Hall. simpl.
  split; [eexists; reflexivity | reflexivity].
Qed.

(** ** The column planner (claim C2) *)

(** C2, as the code has it.  [assemble_column_headers] raises for no
    configuration: it always returns a plan, and with neither orientation
    flag set the plan is the three leading columns alone. *)
Theorem planner_never_fails options :
  (exists plan, View.assemble_column_headers options = Ok plan) /\
  (Options.win_loss options = false -> Options.home_away options = false ->
   View.assemble_column_headers options
   = Ok (["season"; "day"; "isPostseason"], ["Sea"; "Day"; "Post"])).
Proof.
  unfold View.assemble_column_headers. split.
  - destruct (Options.win_loss options), (Options.home_away options),
      (Options.winning_pitcher options), (Options.losing_pitcher options),
      (Options.home_pitcher options), (Options.away_pitcher options);
      eexists; reflexivity.
  - now intros -> ->.
Qed.

(** ** Odds in the names (claim C4) *)

Lemma round_half_even_nearest m d :
  0 <= m -> 0 < d -> nearest_ties_even (round_half_even m d) m d.
Proof.
  intros Hm Hd. unfold nearest_ties_even, round_half_even.
  pose proof (Z.div_mod m d ltac:(lia)) as Hdm.
  pose proof (Z.mod_pos_bound m d Hd) as Hr.
  set (q := m / d) in *. set (r := m mod d) in *.
  destruct (Z.compare_spec (2 * r) d) as [E|L|G].
  - destruct (Z.even q) eqn:Hq.
    + split; [|auto]. replace (q * d - m) with (- r) by lia. lia.
    + split.
      * replace ((q + 1) * d - m) with (d - r) by lia. lia.
      * intros _. rewrite Z.even_add, Hq. reflexivity.
  - split; replace (q * d - m) with (- r) by lia; lia.
  - split; replace ((q + 1) * d - m) with (d - r) by lia; lia.
Qed.

Lemma round_float_nearest s m e :
  exists p, round_float (S754_finite s m e) = Ok p /\
            nearest_ties_even p (float_fraction s m e).1 (float_fraction s m e).2.
Proof.
  unfold round_float, float_fraction. eexists. split; [reflexivity|].
  destruct e as [|e|e]; simpl fst; simpl snd.
  - unfold nearest_ties_even. destruct s; split; try lia.
  - unfold nearest_ties_even. assert (0 < 2 ^ Z.pos e) by lia.
    destruct s; split; try lia.
  - pose proof (round_half_even_nearest (Z.pos m) (2 ^ Z.pos e)
                  ltac:(lia) ltac:(lia)) as [Hn Ht].
    set (a := round_half_even _ _) in *. unfold nearest_ties_even.
    destruct s.
    + replace (- a * 2 ^ Z.pos e - -1 * Z.pos m)
        with (- (a * 2 ^ Z.pos e - Z.pos m)) by lia.
      rewrite Z.abs_opp, Z.even_opp. now split.
    + replace (1 * Z.pos m) with (Z.pos m) by lia. now split.
Qed.

(** ** The annotated names in the transformed rows *)

Lemma cell_lookup k i df c :
  lookup_col k (data df) = Some c -> cell k i df = c !! i.
Proof. unfold cell. now intros ->. Qed.

Lemma df_apply_rows_lookup f df col i :
  df_apply_rows f df = Ok (AppliedSeries col) -> (i < nrows df)%nat ->
  exists y, col !! i = Some y /\ f (df_row df i) = Ok y.
Proof.
  unfold df_apply_rows, df_iterrows. intros E Hi.
  destruct (nrows df) as [|n] eqn:Hn; [lia|]. rewrite <- Hn in *.
  destruct (mapR f (map (df_row df) (seq 0 (nrows df)))) as [l|] eqn:El;
    [|discriminate E].
  inversion E; subst l.
  apply (mapR_Ok_lookup _ _ _ i (df_row df i)) in El; [assumption|].
  now rewrite list_lookup_fmap, lookup_seq_lt.
Qed.

Lemma select_present ks df d k :
  df_select ks df = Ok d -> In k ks -> is_Some (lookup_col k (data df)).
Proof.
  intros E Hk. destruct (lookup_col k (data df)) eqn:El; [eauto|].
  rewrite (select_missing_KeyError ks df k Hk El) in E. discriminate E.
Qed.

Lemma annotate_cell `{Externals} cut nl ol cut' i a b :
  annotate cut (nl, ol) = Ok cut' -> nl <> ol -> (i < nrows cut)%nat ->
  (forall c, lookup_col nl (data cut) = Some c -> c !! i = Some a) ->
  (forall c, lookup_col ol (data cut) = Some c -> c !! i = Some b) ->
  exists y,
    (scaled ← times100 b; percent ← py_round scaled; format_name_odds a percent)
    = Ok y /\
    cell nl i cut' = Some y.
Proof.
  intros E Hne Hi Ha Hb.
  apply annotate_Ok in E as (pair & col & Hsel & Hcol & ->).
  destruct (select_present _ _ _ nl Hsel ltac:(now left)) as (ca & Hca).
  destruct (select_present _ _ _ ol Hsel ltac:(right; now left)) as (cb & Hcb).
  apply df_select_Ok in Hsel as (Hn & _ & Hsel).
  assert (Hra : row_get nl (df_row pair i) = Ok a).
  { apply row_get_cell. unfold cell. rewrite Hsel. simpl.
    rewrite String.eqb_refl. simpl. rewrite Hca. now apply Ha. }
  assert (Hrb : row_get ol (df_row pair i) = Ok b).
  { apply row_get_cell. unfold cell. rewrite Hsel. simpl.
    rewrite String.eqb_refl, orb_true_r. simpl. rewrite Hcb. now apply Hb. }
  rewrite <- Hn in Hi.
  destruct (df_apply_rows_lookup _ _ _ _ Hcol Hi) as (y & Hy & Hf).
  unfold RichView.addodds in Hf. rewrite Hra, Hrb, !bind_Ok_l in Hf.
  exists y. split; [assumption|].
  unfold cell. rewrite lookup_col_assign, String.eqb_refl. exact Hy.
Qed.

Lemma foldR_annotate_cell `{Externals} ls cut cut' nl ol i a b :
  foldR annotate ls cut = Ok cut' ->
  NoDup (map fst ls) ->
  (forall l l', In l ls -> In l' ls -> l.1 <> l'.2) ->
  In (nl, ol) ls -> (i < nrows cut)%nat ->
  (forall c, lookup_col nl (data cut) = Some c -> c !! i = Some a) ->
  (forall c, lookup_col ol (data cut) = Some c -> c !! i = Some b) ->
  exists y,
    (scaled ← times100 b; percent ← py_round scaled; format_name_odds a percent)
    = Ok y /\
    cell nl i cut' = Some y.
Proof.
  revert cut. induction ls as [|[n0 o0] ls IH]; intros cut E Hnd Hno Hin Hi Ha Hb.
  - destruct Hin.
  - simpl in E. apply bind_Ok in E as (cut1 & H1 & E).
    apply NoDup_cons in Hnd as (Hn0 & Hnd). destruct Hin as [[= -> ->]|Hin].
    + destruct (annotate_cell _ _ _ _ _ _ _ H1
                  (Hno (nl, ol) (nl, ol) ltac:(now left) ltac:(now left)) Hi Ha Hb)
        as (y & Hy & Hcell).
      exists y. split; [assumption|]. unfold cell in *.
      rewrite (foldR_annotate_other _ _ _ nl E); [assumption|].
      intros l Hl <-. apply Hn0. apply list_elem_of_In. apply in_map_iff.
      exists l. split; [reflexivity | assumption].
    + assert (Hnl : nl <> n0).
      { intros ->. apply Hn0. apply list_elem_of_In, in_map_iff.
        now exists (n0, ol). }
      assert (Hol : ol <> n0).
      { intros ->. apply (Hno (n0, o0) (nl, n0)); [now left | now right | reflexivity]. }
      apply annotate_Ok in H1 as (pair & col & _ & _ & ->).
      apply (IH _ E Hnd).
      * intros l l' Hl Hl'. apply Hno; now right.
      * assumption.
      * exact Hi.
      * intros c. rewrite lookup_col_assign.
        destruct (String.eqb_spec nl n0); [contradiction | apply Ha].
      * intros c. rewrite lookup_col_assign.
        destruct (String.eqb_spec ol n0); [contradiction | apply Hb].
Qed.

Ltac case_name_style self :=
  destruct (String.eqb_spec (Options.name_style (View.options self)) "short")
    as [->|?];
  [| destruct (String.eqb_spec (Options.name_style (View.options self)) "long")
       as [->|?];
     [| destruct (String.eqb_spec (Options.name_style (View.options self)) "emoji")
          as [->|?] ] ].

Lemma side_labels_facts self nl ol :
  In (nl, ol) (side_labels self) ->
  NoDup (map fst (side_labels self)) /\
  (forall l l', In l (side_labels self) -> In l' (side_labels self) -> l.1 <> l'.2) /\
  str_contains "Odds" nl = false /\ str_contains "Odds" ol = true /\
  str_contains "Team" ol = false /\
  nl <> "season" /\ nl <> "day" /\ nl <> "isPostseason" /\
  (Options.name_style (View.options self) <> "emoji" -> str_last 5 nl <> "Emoji").
Proof.
  unfold side_labels, name_labels, odds_labels, sides.
  destruct (Options.win_loss (View.options self)); case_name_style self;
    simpl; intros Hin;
    repeat (destruct Hin as [[= <- <-] | Hin]); try (destruct Hin);
    (split; [apply NoDup_cons_2;
             [rewrite list_elem_of_singleton; discriminate | apply NoDup_singleton] |]);
    (split; [intros l l' [<-|[<-|[]]] [<-|[<-|[]]]; discriminate |]);
    repeat split; try reflexivity; try discriminate; try congruence.
Qed.

(** ** Annotated names do not decode *)

Lemma all_space_paren t : all_space (t +:+ ")") = false.
Proof.
  induction t as [|c t IH]; [reflexivity|].
  change (is_space c && all_space (t +:+ ")") = false).
  rewrite IH. apply andb_false_r.
Qed.

Lemma scan_hex_paren t b acc : scan_hex (t +:+ ")") b acc = None.
Proof.
  revert b acc. induction t as [|c t IH]; intros b acc.
  - simpl. now destruct b.
  - change (scan_hex (String c (t +:+ ")")) b acc = None).
    cbn [scan_hex]. destruct (Ascii.eqb c "_").
    + destruct b; [reflexivity | apply IH].
    + destruct (hex_digit c); [apply IH|].
      change (String c (t +:+ ")")) with (String c t +:+ ")").
      rewrite all_space_paren. simpl. now rewrite orb_true_r.
Qed.

Lemma lstrip_paren t : exists t', lstrip (t +:+ ")") = t' +:+ ")".
Proof.
  induction t as [|c t IH]; [now exists ""|].
  change (exists t', lstrip (String c (t +:+ ")")) = t' +:+ ")").
  cbn [lstrip]. destruct (is_space c); [exact IH | now exists (String c t)].
Qed.

Lemma strip_sign_paren (t : string) :
  exists t' : string, (strip_sign (t +:+ ")")).2 = (t' +:+ ")")%string.
Proof.
  destruct t as [|c t]; [now exists ""|].
  change (String c t +:+ ")") with (String c (t +:+ ")")). unfold strip_sign.
  destruct (Ascii.eqb c "+"); [now exists t|].
  destruct (Ascii.eqb c "-"); [now exists t | now exists (String c t)].
Qed.

Lemma strip_hex_prefix_paren (t : string) :
  exists t' : string, strip_hex_prefix (t +:+ ")") = (t' +:+ ")")%string.
Proof.
  destruct t as [|c1 [|c2 t]].
  - now exists "".
  - exists (String c1 "").
    change (String c1 "" +:+ ")") with (String c1 (String ")" "")).
    unfold strip_hex_prefix.
    replace (Ascii.eqb c1 "0" && (Ascii.eqb ")" "x" || Ascii.eqb ")" "X"))
      with false by (now rewrite andb_false_r).
    reflexivity.
  - change (String c1 (String c2 t) +:+ ")")
      with (String c1 (String c2 (t +:+ ")"))).
    unfold strip_hex_prefix.
    destruct (Ascii.eqb c1 "0" && (Ascii.eqb c2 "x" || Ascii.eqb c2 "X"));
      [|now exists (String c1 (String c2 t))].
    destruct t as [|c3 t]; [now exists ""|].
    change (String c3 t +:+ ")") with (String c3 (t +:+ ")")).
    cbv beta iota.
    destruct (Ascii.eqb c3 "_"); [now exists t | now exists (String c3 t)].
Qed.

(** [int(x, 16)] of a string that ends with a closing parenthesis is a
    [ValueError]. *)
Lemma int16_paren t : int16 (VStr (t +:+ ")")) = Raise ValueError.
Proof.
  unfold int16. destruct (lstrip_paren t) as (t1 & ->).
  destruct (strip_sign_paren t1) as (t2 & H2).
  destruct (strip_sign (t1 +:+ ")")) as [neg s2]. simpl in H2. subst s2.
  destruct (strip_hex_prefix_paren t2) as (t3 & ->).
  rewrite scan_hex_paren. now destruct (starts_with_digit _).
Qed.

Lemma emoji_lambda_paren t : RichView.emoji_lambda (VStr (t +:+ ")")) = Raise ValueError.
Proof. unfold RichView.emoji_lambda. now rewrite int16_paren. Qed.

Lemma is_Raise_bind_l {A B} (m : result A) (f : A -> result B) :
  is_Raise m -> is_Raise (m ≫= f).
Proof. intros (e & ->). now exists e. Qed.

Lemma mapR_Raise {A B} (f : A -> result B) l i x :
  l !! i = Some x -> is_Raise (f x) -> is_Raise (mapR f l).
Proof.
  revert i. induction l as [|x0 l IH]; intros i Hi Hx; [discriminate|].
  simpl. destruct i as [|i]; simpl in Hi.
  - inversion Hi; subst. destruct Hx as (e & ->). now exists e.
  - destruct (f x0); [|now eexists]. simpl.
    destruct (IH _ Hi Hx) as (e & ->). now exists e.
Qed.

(** A turn of the decoding loop leaves the other columns as they are. *)
Lemma decode_column_other cut h cut1 k :
  decode_column cut h = Ok cut1 -> k <> h ->
  lookup_col k (data cut1) = lookup_col k (data cut).
Proof.
  unfold decode_column. intros H1 Hne.
  destruct (String.eqb (str_last 5 h) "Emoji").
  - apply bind_Ok in H1 as (c & _ & H1). apply bind_Ok in H1 as (c' & _ & H1).
    inversion H1; subst. rewrite lookup_col_assign.
    destruct (String.eqb_spec k h); [contradiction | reflexivity].
  - now inversion H1; subst.
Qed.

(** Decoding a column that holds an annotated name fails. *)
Lemma decode_column_annotated cut k i t :
  str_last 5 k = "Emoji" ->
  cell k i cut = Some (VStr (t +:+ ")")) ->
  is_Raise (decode_column cut k).
Proof.
  intros Hk Hcell. unfold decode_column. rewrite Hk, String.eqb_refl.
  unfold cell in Hcell. unfold df_col.
  destruct (lookup_col k (data cut)) as [c|]; simpl in Hcell; [|discriminate].
  rewrite bind_Ok_l. apply is_Raise_bind_l. unfold series_apply.
  apply (mapR_Raise RichView.emoji_lambda c i _ Hcell).
  rewrite emoji_lambda_paren. now eexists.
Qed.

(** Decoding fails when a column to decode has an annotated name. *)
Lemma foldR_decode_annotated hs cut k i t :
  In k hs -> str_last 5 k = "Emoji" ->
  cell k i cut = Some (VStr (t +:+ ")")) ->
  is_Raise (foldR decode_column hs cut).
Proof.
  intros Hin Hk. revert cut. induction hs as [|h hs IH]; intros cut Hcell;
    [destruct Hin|].
  cbn [foldR]. destruct (String.eqb_spec h k) as [->|Hne].
  - apply is_Raise_bind_l. now apply (decode_column_annotated cut k i t).
  - destruct Hin as [->|Hin]; [contradiction|].
    apply is_Raise_bind. intros cut1 H1. apply (IH Hin).
    unfold cell in *. rewrite (decode_column_other _ _ _ _ H1); [assumption|].
    congruence.
Qed.

(** What [addodds] returns ends with a closing parenthesis. *)
Lemma annotation_paren `{Externals} a b y :
  (scaled ← times100 b; percent ← py_round scaled; format_name_odds a percent)
  = Ok y ->
  exists t, y = VStr (t +:+ ")").
Proof.
  intros E. apply bind_Ok in E as (scaled & _ & E).
  apply bind_Ok in E as (percent & _ & E). unfold format_name_odds in E.
  apply bind_Ok in E as (d & _ & E). inversion E; subst y.
  exists (py_str a +:+ " (" +:+ d +:+ "%").
  now rewrite !append_assoc.
Qed.

(** The loop of step 4 finds every name column it is to rewrite. *)
Lemma foldR_annotate_present `{Externals} ls cut cut' nl ol :
  foldR annotate ls cut = Ok cut' -> In (nl, ol) ls ->
  is_Some (lookup_col nl (data cut)).
Proof.
  revert cut. induction ls as [|[n0 o0] ls IH]; intros cut E Hin; [destruct Hin|].
  simpl in E. apply bind_Ok in E as (cut1 & H1 & E).
  apply annotate_Ok in H1 as (pair & col & Hsel & _ & ->).
  destruct Hin as [[= -> ->]|Hin].
  - apply (select_present _ _ _ nl Hsel). now left.
  - specialize (IH _ E Hin). rewrite lookup_col_assign in IH.
    destruct (String.eqb_spec nl n0) as [->|_]; [|assumption].
    apply (select_present _ _ _ n0 Hsel). now left.
Qed.

(** The names of an underdog table after step 6: the cell holds what
    [addodds] made of the name and the odds of its row, and its column is
    one of those that step 7 goes through. *)
Lemma pipeline_annotated `{Externals} glyph self df self' cut nl ol i a b :
  pipeline glyph self df "underdog" = Ok (self', cut) ->
  In (nl, ol) (side_labels self) -> (i < kept self df)%nat ->
  cell nl i df = Some a -> cell ol i df = Some b ->
  exists y cut4 cut5,
    (scaled ← times100 b; percent ← py_round scaled; format_name_odds a percent)
    = Ok y /\
    cell nl i cut4 = Some y /\
    foldR decode_column (prune (View.column_headers self)) cut4 = Ok cut5 /\
    cut = stage_str cut5 /\
    In nl (prune (View.column_headers self)).
Proof.
  intros E Hin Hi Ha Hb.
  destruct (side_labels_facts _ _ _ Hin)
    as (Hnd & Hno & HnO & HoO & HoT & Hs & Hd & Hp & _).
  apply pipeline_Ok in E
    as (cut0 & cut1 & cut2 & cut3 & cut4 & cut5 & H0 & H1 & H2 & H3 & H4 & H5 & -> & _).
  apply stage_cut_Ok in H0 as (Hn0 & H0).
  apply stage_reindex_Ok in H1 as (s & s' & d & d' & _ & _ & _ & _ & ->).
  assert (Hcut1 : forall k v, k <> "season" -> k <> "day" -> cell k i df = Some v ->
            forall c, lookup_col k (data (df_assign "day" d' (df_assign "season" s' cut0)))
                      = Some c -> c !! i = Some v).
  { intros k v Hks Hkd Hv c. rewrite !lookup_col_assign.
    destruct (String.eqb_spec k "day"); [contradiction|].
    destruct (String.eqb_spec k "season"); [contradiction|].
    rewrite H0. unfold cell in Hv. destruct (list_contains _ _); [|discriminate].
    destruct (lookup_col k (data df)) as [c0|]; simpl in *; [|discriminate].
    intros [= <-]. now rewrite lookup_take_lt. }
  unfold stage_odds in H2. simpl in H2. unfold side_labels in *.
  destruct (name_labels self) as [nls|]; [|destruct Hin].
  assert (Hod : ol <> "season" /\ ol <> "day").
  { split; intros ->; discriminate HoO. }
  destruct (foldR_annotate_cell _ _ _ nl ol i a b H2 Hnd Hno Hin)
    as (y & Hy & Hcell); [simpl; lia | apply Hcut1; tauto | apply Hcut1; tauto |].
  assert (Hplan : In nl (prune (View.column_headers self))).
  { apply prune_spec. split; [|assumption]. apply list_contains_spec.
    destruct (foldR_annotate_present _ _ _ nl ol H2 Hin) as (c & Hc).
    rewrite !lookup_col_assign in Hc.
    destruct (String.eqb_spec nl "day"); [contradiction|].
    destruct (String.eqb_spec nl "season"); [contradiction|].
    rewrite H0 in Hc. now destruct (list_contains _ _). }
  exists y, cut4, cut5. repeat split; try assumption.
  apply df_drop_Ok in H3 as (_ & _ & H3).
  unfold stage_post in H4. apply bind_Ok in H4 as (post & _ & H4).
  inversion H4; subst cut4. unfold cell in *.
  rewrite lookup_col_assign.
  destruct (String.eqb_spec nl "isPostseason"); [contradiction|].
  now rewrite H3, not_odds_label by assumption.
Qed.

(** The names of an underdog table in the transformed rows. *)
Lemma pipeline_names `{Externals} glyph self df self' cut nl ol i a b :
  pipeline glyph self df "underdog" = Ok (self', cut) ->
  In (nl, ol) (side_labels self) -> (i < kept self df)%nat ->
  cell nl i df = Some a -> cell ol i df = Some b ->
  exists y,
    (scaled ← times100 b; percent ← py_round scaled; format_name_odds a percent)
    = Ok y /\
    cell nl i cut = Some (VStr (py_str y)).
Proof.
  intros E Hin Hi Ha Hb.
  destruct (pipeline_annotated _ _ _ _ _ _ _ _ _ _ E Hin Hi Ha Hb)
    as (y & cut4 & cut5 & Hy & Hcell & H5 & -> & Hplan).
  exists y. split; [assumption|].
  destruct (String.eqb_spec (str_last 5 nl) "Emoji") as [He|He].
  - destruct (annotation_paren _ _ _ Hy) as (t & ->).
    destruct (foldR_decode_annotated _ _ _ _ _ Hplan He Hcell) as (e & Hr).
    rewrite Hr in H5. discriminate H5.
  - unfold cell in *. unfold stage_str.
    rewrite lookup_col_applymap, (foldR_decode_other _ _ _ _ H5 He).
    destruct (lookup_col nl (data cut4)) as [c|]; simpl in *; [|discriminate].
    now rewrite list_lookup_fmap, Hcell.
Qed.

Lemma side_labels_emoji self nl ol :
  Options.name_style (View.options self) = "emoji" ->
  In (nl, ol) (side_labels self) -> str_last 5 nl = "Emoji".
Proof.
  unfold side_labels, name_labels, odds_labels, sides. intros ->.
  destruct (Options.win_loss (View.options self)); simpl; intros Hin;
    repeat (destruct Hin as [[= <- <-] | Hin]); try (destruct Hin); reflexivity.
Qed.

(** X1, beside claim C4.  With the emoji name style, an underdog table
    that keeps a row is not made by either renderer: the loop that decodes
    the emoji columns reads the annotated name, code point and percentage
    together, as a hexadecimal number, and [int] raises. *)
Theorem underdog_emoji_fails `{Externals} self df nl ol i a b :
  Options.name_style (View.options self) = "emoji" ->
  In (nl, ol) (side_labels self) -> (i < kept self df)%nat ->
  cell nl i df = Some a -> cell ol i df = Some b ->
  is_Raise (RichView.transform self df "underdog") /\
  is_Raise (MarkdownView.transform self df "underdog").
Proof.
  intros Hstyle Hin Hi Ha Hb.
  rewrite RichView_transform_pipeline, MarkdownView_transform_pipeline.
  assert (Hp : forall glyph, is_Raise (pipeline glyph self df "underdog")).
  { intros glyph. destruct (pipeline glyph self df "underdog") as [[self' cut]|e] eqn:E;
      [|now exists e].
    destruct (pipeline_annotated _ _ _ _ _ _ _ _ _ _ E Hin Hi Ha Hb)
      as (y & cut4 & cut5 & Hy & Hcell & H5 & _ & Hplan).
    destruct (annotation_paren _ _ _ Hy) as (t & ->).
    destruct (foldR_decode_annotated _ _ _ _ _ Hplan
                (side_labels_emoji _ _ _ Hstyle Hin) Hcell) as (e & Hr).
    rewrite Hr in H5. discriminate H5. }
  split; apply Hp.
Qed.

Lemma annotation_value `{Externals} name f s m e :
  b64_mul (b64_of_Z 100) f = S754_finite s m e ->
  exists p,
    (scaled ← times100 (VFloat f); percent ← py_round scaled;
     format_name_odds name percent)
    = Ok (VStr (py_str name +:+ " (" +:+ str_of_int p +:+ "%)")) /\
    nearest_ties_even p (float_fraction s m e).1 (float_fraction s m e).2.
Proof.
  intros Hf. destruct (round_float_nearest s m e) as (p & Hp & Hnear).
  exists p.
  change (times100 (VFloat f)) with (Ok (VFloat (b64_mul (b64_of_Z 100) f))).
  rewrite Hf, !bind_Ok_l.
  change (py_round (VFloat (S754_finite s m e)))
    with (VInt <$> round_float (S754_finite s m e)).
  rewrite Hp. auto.
Qed.

(** The two [addodds] lambdas on a row: the name, a space and in parentheses
    the rounded percentage with a percent sign. *)
Lemma addodds_rounds `{Externals} nl ol row name f s m e :
  row_get nl row = Ok name -> row_get ol row = Ok (VFloat f) ->
  b64_mul (b64_of_Z 100) f = S754_finite s m e ->
  exists p,
    RichView.addodds nl ol row
    = Ok (VStr (py_str name +:+ " (" +:+ str_of_int p +:+ "%)")) /\
    MarkdownView.addodds nl ol row
    = Ok (VStr (py_str name +:+ " (" +:+ str_of_int p +:+ "%)")) /\
    nearest_ties_even p (float_fraction s m e).1 (float_fraction s m e).2.
Proof.
  intros Hn Ho Hf. destruct (annotation_value name f s m e Hf) as (p & Hp & Hnear).
  exists p. unfold RichView.addodds, MarkdownView.addodds.
  rewrite Hn, Ho, !bind_Ok_l. auto.
Qed.

(** C4, as the code has it.  In an underdog table of either renderer, the
    name of each side in a kept row whose odds are the float [f] shows as
    the name, a space and in parentheses the percentage with a percent
    sign, where the percentage is what [round] makes of the float
    [100 * f], here the finite float [(s, m, e)]: the nearest integer, and
    the even one of the two when the float lies half way between them. *)
Theorem odds_annotation `{Externals} self df self' cut nl ol i name f s m e :
  RichView.transform self df "underdog" = Ok (self', cut)
  \/ MarkdownView.transform self df "underdog" = Ok (self', cut) ->
  In (nl, ol) (side_labels self) -> (i < kept self df)%nat ->
  cell nl i df = Some name -> cell ol i df = Some (VFloat f) ->
  b64_mul (b64_of_Z 100) f = S754_finite s m e ->
  exists p,
    cell nl i cut
    = Some (VStr (py_str name +:+ " (" +:+ str_of_int p +:+ "%)")) /\
    nearest_ties_even p (float_fraction s m e).1 (float_fraction s m e).2.
Proof.
  intros E Hin Hi Hn Ho Hf.
  assert (Ep : exists glyph, pipeline glyph self df "underdog" = Ok (self', cut)).
  { destruct E as [E|E].
    - rewrite RichView_transform_pipeline in E. eauto.
    - rewrite MarkdownView_transform_pipeline in E. eauto. }
  destruct Ep as (glyph & Ep).
  destruct (pipeline_names _ _ _ _ _ _ _ _ _ _ Ep Hin Hi Hn Ho) as (y & Hy & Hcell).
  destruct (annotation_value name f s m e Hf) as (p & Hp & Hnear).
  rewrite Hp in Hy. inversion Hy; subst y. exists p. split; assumption.
Qed.

(** ** A second table (claim C1) *)

Lemma pipeline_prunes `{Externals} glyph self df reason self' cut h :
  pipeline glyph self df reason = Ok (self', cut) ->
  In h (View.column_headers self') -> str_contains "Odds" h = false.
Proof.
  intros E Hh. apply pipeline_Ok in E as (? & ? & ? & ? & ? & ? & E).
  destruct E as (_ & _ & _ & _ & _ & _ & _ & ->). simpl in Hh.
  now apply prune_spec in Hh.
Qed.

(** C1, as the code has it.  Once either renderer has rendered a table,
    rendering another one with the same view fails in both, whatever the
    frame and the category:
    the odds columns are no longer in the plan, hence not in the cut, and
    both [cut.drop] and the odds annotation need them. *)
Theorem rerender_fails `{Externals}
  self description df reason self' out description' df' reason' :
  RichView._render_table self description df reason = Ok (self', out)
  \/ MarkdownView._render_table self description df reason = Ok (self', out) ->
  is_Raise (RichView._render_table self' description' df' reason') /\
  is_Raise (MarkdownView._render_table self' description' df' reason').
Proof.
  intros E.
  assert (Hpruned : forall h, In h (View.column_headers self') ->
                              str_contains "Odds" h = false).
  { destruct E as [E|E].
    - unfold RichView._render_table in E.
      apply bind_Ok in E as ([s cut] & Ht & E). inversion E; subst.
      rewrite RichView_transform_pipeline in Ht.
      intros h Hh. eapply pipeline_prunes; eassumption.
    - unfold MarkdownView._render_table in E.
      apply bind_Ok in E as ([s cut] & Ht & E).
      apply bind_Ok in E as (table & _ & E).
      assert (s = self') by (destruct (View.output_file s); now inversion E).
      subst s. rewrite MarkdownView_transform_pipeline in Ht.
      intros h Hh. eapply pipeline_prunes; eassumption. }
  split.
  - unfold RichView._render_table. rewrite RichView_transform_pipeline.
    apply is_Raise_bind. intros a Ha. exfalso.
    destruct (pipeline_pruned_fails RichView.postseason_lambda self' df' reason'
                Hpruned) as (e & He). congruence.
  - unfold MarkdownView._render_table. rewrite MarkdownView_transform_pipeline.
    apply is_Raise_bind. intros a Ha. exfalso.
    destruct (pipeline_pruned_fails MarkdownView.postseason_lambda self' df' reason'
                Hpruned) as (e & He). congruence.
Qed.

(** * The properties on the sample data *)

Lemma sample_view_init :
  @View.init sample_externals sample_options = Ok (sample_view, []).
Proof. reflexivity. Qed.

Lemma sample_transform_rich :
  @RichView.transform sample_externals sample_view sample_df "blowout"
  = Ok (sample_view_pruned, sample_cut_rich).
Proof. vm_compute. reflexivity. Qed.

Lemma sample_transform_markdown :
  @MarkdownView.transform sample_externals sample_view sample_df "blowout"
  = Ok (sample_view_pruned, sample_cut_markdown).
Proof. vm_compute. reflexivity. Qed.

(** The floats of the samples are the doubles that Python reads [0.37] and
    [0.005] as. *)
Lemma sample_floats :
  nearest_binary64 37 100 6665327448508334 54 /\
  nearest_binary64 5 1000 5764607523034235 60.
Proof. unfold nearest_binary64. repeat split; vm_compute; congruence. Qed.

(** C1: the second table of a run.  The first one, a blowout table, is
    rendered; the next one fails. *)
Lemma rerender_fails_witness :
  is_Raise (@RichView._render_table sample_externals
              sample_view_pruned "caption" sample_df "shutout") /\
  is_Raise (@MarkdownView._render_table sample_externals
              sample_view_pruned "caption" sample_df "shutout").
Proof.
  apply (@rerender_fails sample_externals sample_view "caption" sample_df "blowout"
           sample_view_pruned
           [ConsolePrint (newline +:+ newline);
            ConsoleTable (RichView.build_table sample_view_pruned sample_cut_rich);
            ConsolePrint newline; Print "caption";
            ConsolePrint (newline +:+ newline)]
           "caption" sample_df "shutout").
  left. vm_compute. reflexivity.
Defined.

(** What the second table fails with: [KeyError] from [cut.drop] in a
    table of any category but underdog, exit status 1 in an underdog table,
    in both renderers; the first table alone is rendered. *)
Lemma second_table_fails :
  @RichView.make_table sample_externals sample_view
    [("blowout", sample_df); ("shutout", sample_df)] = Raise KeyError /\
  @MarkdownView.make_table sample_externals sample_view
    [("blowout", sample_df); ("shutout", sample_df)] = Raise KeyError /\
  @RichView.make_table sample_externals sample_view
    [("blowout", sample_df); ("underdog", sample_df)] = Raise (SystemExit 1) /\
  ~ is_Raise (@RichView.make_table sample_externals sample_view
                [("blowout", sample_df)]).
Proof.
  repeat split; try (vm_compute; reflexivity).
  intros (e & He). vm_compute in He. discriminate He.
Qed.

(** C2: neither configuration makes the planner fail. *)
Lemma planner_returns_on_invalid :
  View.assemble_column_headers sample_options_no_orientation
  = Ok (["season"; "day"; "isPostseason"], ["Sea"; "Day"; "Post"]) /\
  ~ is_Raise (View.assemble_column_headers sample_options_no_orientation) /\
  ~ is_Raise (View.assemble_column_headers sample_options_bad_style).
Proof.
  split; [reflexivity|].
  split; intros (e & He); vm_compute in He; discriminate He.
Qed.

Lemma planner_never_fails_witness :
  View.assemble_column_headers sample_options_no_orientation
  = Ok (["season"; "day"; "isPostseason"], ["Sea"; "Day"; "Post"]).
Proof.
  apply (proj2 (planner_never_fails sample_options_no_orientation)); reflexivity.
Defined.

(** C4: odds of [0.005] give 0%, not 1%: a hundred times the float is
    exactly one half, and [round] goes to the even neighbour. *)
Lemma half_percent_rounds_to_even :
  b64_mul (b64_of_Z 100) float_0_005 = S754_finite false 4503599627370496 (-53) /\
  @RichView.addodds sample_externals "winningTeamName" "winningOdds" sample_row_half
  = Ok (VStr "Moist Talkers (0%)") /\
  @RichView.addodds sample_externals "winningTeamName" "winningOdds" sample_row_half
  <> Ok (VStr "Moist Talkers (1%)") /\
  (exists self' cut,
     @RichView.transform sample_externals sample_view sample_df "underdog"
     = Ok (self', cut) /\
     cell "winningTeamName" 1 cut = Some (VStr "Tigers (0%)")).
Proof.
  split; [vm_compute; reflexivity|]. split; [vm_compute; reflexivity|].
  split; [vm_compute; discriminate|].
  eexists _, _. split; vm_compute; reflexivity.
Qed.

Lemma odds_annotation_witness :
  exists p,
    cell "winningTeamName" 0 sample_cut_underdog
    = Some (VStr ("Moist Talkers" +:+ " (" +:+ str_of_int p +:+ "%)")) /\
    nearest_ties_even p 5207287069147136 (2 ^ 47).
Proof.
  apply (@odds_annotation sample_externals sample_view sample_df
           sample_view_pruned sample_cut_underdog
           "winningTeamName" "winningOdds" 0%nat
           (VStr "Moist Talkers") float_0_37 false 5207287069147136 (-47)).
  - left. vm_compute. reflexivity.
  - left. reflexivity.
  - vm_compute. lia.
  - reflexivity.
  - reflexivity.
  - vm_compute. reflexivity.
Defined.

(** The percentage of the witness is 37. *)
Lemma moist_talkers_37 :
  @RichView.addodds sample_externals "winningTeamName" "winningOdds" sample_row
  = Ok (VStr "Moist Talkers (37%)").
Proof. vm_compute. reflexivity. Qed.

(** With emoji names the underdog table of the sample game is not made:
    [int("0x41 (37%)", 16)] is a [ValueError].  The blowout table of the
    same game is, with the names decoded. *)
Lemma underdog_emoji_sample :
  @RichView.transform sample_externals sample_view_emoji sample_df_emoji "underdog"
  = Raise ValueError /\
  @MarkdownView.transform sample_externals sample_view_emoji sample_df_emoji "underdog"
  = Raise ValueError /\
  (exists self' cut,
     @RichView.transform sample_externals sample_view_emoji sample_df_emoji "blowout"
     = Ok (self', cut) /\
     cell "winningTeamEmoji" 0 cut = Some (VStr "A")).
Proof.
  split; [vm_compute; reflexivity|]. split; [vm_compute; reflexivity|].
  eexists _, _. split; vm_compute; reflexivity.
Qed.

Lemma underdog_emoji_fails_witness :
  is_Raise (@RichView.transform sample_externals sample_view_emoji sample_df_emoji
              "underdog") /\
  is_Raise (@MarkdownView.transform sample_externals sample_view_emoji sample_df_emoji
              "underdog").
Proof.
  apply (@underdog_emoji_fails sample_externals sample_view_emoji sample_df_emoji
           "winningTeamEmoji" "winningOdds" 0%nat (VStr "0x41") (VFloat float_0_37)).
  - reflexivity.
  - left. reflexivity.
  - vm_compute. lia.
  - reflexivity.
  - reflexivity.
Defined.

(** C5: a selection that has the roster and another name in it is not the
    roster, and yet the caption says all teams, where the claim has the
    selection listed. *)
Lemma caption_superset_all_teams :
  (list_to_set ["Tigers"; "Moist Talkers"; "Crabs"; "Nobody"] : gset string)
  <> list_to_set (@ALLTEAMS sample_externals) /\
  @View.table_description sample_externals sample_view_superset "shutout"
  = Ok ("Shutout games (games where the loser had zero runs) for all time "
        +:+ "(postseason only) for all teams"
        +:+ " (note: all days and seasons displayed are 1-indexed)") /\
  @team_phrase sample_externals ["Tigers"; "Moist Talkers"; "Crabs"; "Nobody"]
  = "for teams Tigers, Moist Talkers, Crabs, Nobody" /\
  @View.table_description sample_externals sample_view_superset (category_name Shutout)
  <> Ok (category_phrase Shutout
         +:+ scope_phrase ["3"; "all"]
         +:+ postseason_phrase true
         +:+ @team_phrase sample_externals
               ["Tigers"; "Moist Talkers"; "Crabs"; "Nobody"]
         +:+ footer).
Proof.
  split.
  { intros E.
    assert (Hn : "Nobody" ∈ (list_to_set ["Tigers"; "Moist Talkers"; "Crabs"; "Nobody"]
                             : gset string)).
    { apply elem_of_list_to_set. rewrite !elem_of_cons. tauto. }
    rewrite E in Hn. apply elem_of_list_to_set in Hn. simpl in Hn.
    rewrite !elem_of_cons, elem_of_nil in Hn. intuition discriminate. }
  split; [vm_compute; reflexivity|]. split; [vm_compute; reflexivity|].
  vm_compute. discriminate.
Qed.

(** C5 on a view for the seasons 3 and 4 and two teams of the roster. *)
Lemma caption_wording_witness :
  @View.table_description sample_externals sample_view_two (category_name Shutout)
  = Ok (category_phrase Shutout
        +:+ scope_phrase ["3"; "4"]
        +:+ postseason_phrase true
        +:+ @team_phrase_amended sample_externals ["Tigers"; "Crabs"]
        +:+ footer).
Proof.
  apply (proj1 (@caption_wording sample_externals sample_view_two Shutout)).
Defined.

(** The caption of the witness, letter by letter. *)
Lemma sample_caption_joined :
  @View.table_description sample_externals sample_view_two "shutout"
  = Ok ("Shutout games (games where the loser had zero runs) for seasons 3, 4 "
        +:+ "(postseason only) for teams Tigers, Crabs"
        +:+ " (note: all days and seasons displayed are 1-indexed)") /\
  scope_phrase ["3"; "4"] = "for seasons 3, 4 " /\
  @team_phrase_amended sample_externals ["Tigers"; "Crabs"]
  = "for teams Tigers, Crabs".
Proof. repeat split; vm_compute; reflexivity. Qed.

(** C9 on the sample view, whose season selector is [3, all] and whose
    teams are the roster in another order. *)
Lemma sample_caption :
  @View.table_description sample_externals sample_view "shutout"
  = Ok ("Shutout games (games where the loser had zero runs) for all time "
        +:+ "(postseason only) for all teams"
        +:+ " (note: all days and seasons displayed are 1-indexed)").
Proof. vm_compute. reflexivity. Qed.

Lemma all_token_membership_witness :
  (exists rest,
     @View.table_description sample_externals sample_view (category_name Shutout)
     = Ok (category_phrase Shutout +:+ "for all time " +:+ rest)) /\
  @View.table_description sample_externals sample_view (category_name Shutout)
  = @View.table_description sample_externals (set_season sample_view ["all"])
      (category_name Shutout).
Proof.
  apply (@all_token_membership sample_externals sample_view Shutout).
  simpl. tauto.
Defined.

(** C6 on the first game: season 2 shows as 3. *)
Lemma season_day_round_trip_witness :
  exists shown,
    cell "season" 0 sample_cut_rich = Some (VStr shown) /\
    shown = str_of_int (2 + 1) /\
    (n ← int_of_str shown; mret (n - 1)) = Ok 2.
Proof.
  apply (@season_day_round_trip sample_externals sample_view sample_df "blowout"
           sample_view_pruned sample_cut_rich "season" 0%nat 2).
  - left. vm_compute. reflexivity.
  - left. reflexivity.
  - reflexivity.
  - vm_compute. lia.
Defined.

(** C7 on the second game, a postseason game. *)
Lemma postseason_rendering_witness :
  (row_get "isPostseason" (df_row sample_cut_rich 1) = Ok (VStr "Y") /\
   table_rows (RichView.build_table sample_view_pruned sample_cut_rich) !! 1%nat
   = Some (map snd (df_row sample_cut_rich 1)) /\
   forall description,
     @RichView._render_table sample_externals sample_view description sample_df
       "blowout"
     = Ok (sample_view_pruned,
           [ConsolePrint (newline +:+ newline);
            ConsoleTable (RichView.build_table sample_view_pruned sample_cut_rich);
            ConsolePrint newline; Print description;
            ConsolePrint (newline +:+ newline)])) /\
  (row_get "isPostseason" (df_row sample_cut_markdown 1) = Ok (VStr "*") /\
   @MarkdownView.row_line sample_externals (df_row sample_cut_markdown 1)
   = Ok ("| " +:+ concat_all (map (@md_cell sample_externals "*")
                                  (df_row sample_cut_markdown 1))) /\
   (MarkdownView.header_lines sample_view_pruned).1
   = "| " +:+ concat_all (map md_label
               (zip (View.column_headers sample_view_pruned)
                    (View.nice_column_headers sample_view_pruned))) /\
   exists lines table,
     @MarkdownView.build_table sample_externals sample_view_pruned
       sample_cut_markdown = Ok table /\
     table = (MarkdownView.header_lines sample_view_pruned).1 +:+ newline
             +:+ (MarkdownView.header_lines sample_view_pruned).2 +:+ newline
             +:+ concat_all (map (fun line => line +:+ newline) lines) /\
     length lines = kept sample_view sample_df /\
     lines !! 1%nat
     = Some ("| " +:+ concat_all (map (@md_cell sample_externals "*")
                                      (df_row sample_cut_markdown 1))) /\
     forall description,
       @MarkdownView._render_table sample_externals sample_view description
         sample_df "blowout"
       = Ok (sample_view_pruned,
             match View.output_file sample_view with
             | None => [Print (newline +:+ newline); Print description;
                        Print newline; Print table]
             | Some f => [FileAppend f (newline +:+ newline);
                          FileAppend f description;
                          FileAppend f newline; FileAppend f table]
             end)).
Proof.
  apply (@postseason_rendering sample_externals sample_view sample_df "blowout"
           sample_view_pruned sample_cut_rich sample_cut_markdown 1%nat true).
  - vm_compute. reflexivity.
  - vm_compute. reflexivity.
  - reflexivity.
  - vm_compute. lia.
Defined.

(** The Markdown text of the sample table, as it is printed. *)
Lemma sample_markdown_table :
  @MarkdownView.build_table sample_externals sample_view_pruned sample_cut_markdown
  = Ok ("| Sea | Day | Winner | Score | Loser | " +:+ newline
        +:+ "| ------ |------ |------ |------ |------ |" +:+ newline
        +:+ "| 3 | 99 | Moist Talkers | 10 - 2 | Crabs | " +:+ newline
        +:+ "| 4 | 1* | Tigers | 5 - 0 | Moist Talkers | " +:+ newline).
Proof. vm_compute. reflexivity. Qed.

(** The two lines of that game as they are printed. *)
Lemma sample_markdown_row :
  @MarkdownView.row_line sample_externals (df_row sample_cut_markdown 1)
  = Ok "| 4 | 1* | Tigers | 5 - 0 | Moist Talkers | " /\
  (MarkdownView.header_lines sample_view_pruned).1
  = "| Sea | Day | Winner | Score | Loser | ".
Proof. split; vm_compute; reflexivity. Qed.

(** C3 on the sample table, a win/loss table under the long name style:
    its score column, labelled Score, has the default justification. *)
Lemma column_alignment_witness :
  table_columns (RichView.build_table sample_view_pruned sample_cut_rich)
  = map (fun kn => (kn.2, planned_justify (Options.name_style sample_options) kn.1))
        (zip (View.column_headers sample_view_pruned)
             (View.nice_column_headers sample_view_pruned)) /\
  Forall (fun column => column.2 <> JustifyRight)
         (table_columns (RichView.build_table sample_view_pruned sample_cut_rich)) /\
  (exists label,
     In (score_key sample_options, label)
        (zip (View.column_headers sample_view_pruned)
             (View.nice_column_headers sample_view_pruned)) /\
     In (label, JustifyDefault)
        (table_columns (RichView.build_table sample_view_pruned sample_cut_rich)) /\
     spec_justify (Options.name_style sample_options) (score_key sample_options)
     = JustifyRight) /\
  (exists rows,
     @MarkdownView.build_table sample_externals sample_view_pruned sample_cut_markdown
     = Ok (("| " +:+ concat_all
                       (map md_label
                            (zip (View.column_headers sample_view_pruned)
                                 (View.nice_column_headers sample_view_pruned))))
           +:+ newline
           +:+ ("| " +:+ concat_all
                           (map (fun kn =>
                                   if String.eqb kn.1 "isPostseason" then ""
                                   else md_marker
                                          (planned_justify
                                             (Options.name_style sample_options) kn.1))
                                (zip (View.column_headers sample_view_pruned)
                                     (View.nice_column_headers sample_view_pruned))))
           +:+ newline +:+ rows)) /\
  md_marker JustifyRight = "------: | " /\ md_marker JustifyCenter = ":------: | " /\
  md_marker JustifyDefault = "------ |".
Proof.
  apply (@column_alignment sample_externals sample_options sample_view []
           sample_df "blowout" sample_view_pruned sample_cut_rich sample_cut_markdown).
  - reflexivity.
  - vm_compute. reflexivity.
  - vm_compute. reflexivity.
Defined.

(** The columns of the sample table as the interactive renderer declares
    them: the score column, which holds the losing score, is not justified
    to the right. *)
Lemma sample_rich_columns :
  table_columns (RichView.build_table sample_view_pruned sample_cut_rich)
  = [("Sea", JustifyDefault); ("Day", JustifyDefault); ("Post", JustifyDefault);
     ("Winner", JustifyDefault); ("Score", JustifyDefault);
     ("Loser", JustifyDefault)] /\
  spec_justify "long" "winningLosingScore" = JustifyRight.
Proof. split; vm_compute; reflexivity. Qed.

(** C10 on a frame whose postseason cells are [None] and [0]: both show
    as postseason games. *)
Lemma postseason_identity_test_witness :
  cell "isPostseason" 1 sample_cut_odd_flags = Some (VStr "Y") /\
  cell "isPostseason" 1 (reglyph sample_cut_odd_flags) = Some (VStr "*").
Proof.
  refine (proj1 (@postseason_identity_test sample_externals sample_view
                   sample_df_odd_flags "blowout" sample_view_pruned
                   sample_cut_odd_flags (reglyph sample_cut_odd_flags)
                   1%nat (VInt 0) _ _ _ _) _).
  - vm_compute. reflexivity.
  - vm_compute. reflexivity.
  - reflexivity.
  - vm_compute. lia.
  - discriminate.
Defined.
